(** * Momentum / candlestick back-testing engine: a shallow embedding

    This development embeds the signal-composition and position-lifecycle
    core of the strategy (the classes [CandlestickPatterns],
    [MomentumPatterns], [MomentumIndicators], [VolatilityIndicators],
    [EntryRules], [ExitRules] and [BacktestEngine]) and proves properties of
    the bar-by-bar simulation.

    Modelling conventions.
    - Prices, sizes and indicator values are Python/NumPy floats in the
      source.  They are embedded as exact rationals ([Q]); equalities between
      computed values are therefore stated with [==] ([Qeq]).  Rounding and
      non-finite values (NaN during indicator warm-up, infinities) are outside
      the model: a row of the model holds numbers.  Two places of the source
      produce non-finite values from numbers or pass them on, and the
      statements about them say so: NumPy's division by a zero close (inf or
      nan, where [Q] gives 0) in [calculate_momentum_score], whose range is
      stated for non-zero reference closes; and Python's [max(nan, floor)],
      which is nan, in [get_dynamic_stops], whose floor is stated for bars
      whose ATR is a number.
    - A [pandas.DataFrame] is a list of rows ([Bar]); the columns written by
      [MomentumIndicators.calculate_all] and
      [VolatilityIndicators.calculate_all] (computed by TA-Lib and pandas
      rolling windows) are fields of the row, read positionally exactly like
      the price columns.
    - [df[col].iloc[i]] is [col (iloc df i)]; every read made by the engine
      is in range, the out-of-range row [nan_bar] is never inspected by
      [BacktestEngine.run].
    - [np.polyfit] and [np.tanh] are library functions; they are operations
      of the class [Numpy] and every definition and theorem is parametric in
      them. *)

From Stdlib Require Import QArith Qabs Qminmax Lqa.
From Stdlib Require Import List Bool Arith ZArith Lia.
Import ListNotations.

Open Scope Q_scope.

(** ** Numeric helpers: Python comparison operators on floats *)

Definition Qleb (x y : Q) : bool := Qle_bool x y.
Definition Qltb (x y : Q) : bool := negb (Qle_bool y x).
Definition Qgeb (x y : Q) : bool := Qleb y x.
Definition Qgtb (x y : Q) : bool := Qltb y x.

Infix "<=?" := Qleb (at level 70, no associativity) : Q_scope.
Infix "<?" := Qltb (at level 70, no associativity) : Q_scope.
Infix ">=?" := Qgeb (at level 70, no associativity) : Q_scope.
Infix ">?" := Qgtb (at level 70, no associativity) : Q_scope.

(** [sum(xs)] and [Series.mean()] (sum divided by the number of rows). *)
Definition Qsum (xs : list Q) : Q := fold_left Qplus xs 0.

Definition mean (xs : list Q) : Q :=
  Qsum xs / inject_Z (Z.of_nat (length xs)).

(** [Series.max()] and [Series.min()] on a non-empty series. *)
Definition series_max (xs : list Q) : Q :=
  match xs with
  | [] => 0
  | x :: rest => fold_left Qmax rest x
  end.

Definition series_min (xs : list Q) : Q :=
  match xs with
  | [] => 0
  | x :: rest => fold_left Qmin rest x
  end.

(** ** Data model *)

(** The [Volatility_Regime] column: 0 (low), 1 (normal), 2 (high). *)
Inductive VolatilityRegime : Set :=
| LowVolatility      (* 0 *)
| NormalVolatility   (* 1 *)
| HighVolatility.    (* 2 *)

(** One row of the data frame handed to the engine: the index label, the
    OHLCV columns and the indicator columns the rules read. *)
Record Bar : Set := mkBar {
  Time : Z;
  Open : Q;
  High : Q;
  Low : Q;
  Close : Q;
  Volume : Q;
  RSI : Q;
  MACD_Hist : Q;
  BB_Upper : Q;
  BB_Lower : Q;
  ATR : Q;
  Historical_Volatility : Q;
  Volatility_Regime : VolatilityRegime
}.

Definition DataFrame : Set := list Bar.

Definition nan_bar : Bar :=
  mkBar 0%Z 0 0 0 0 0 0 0 0 0 0 0 NormalVolatility.

(** [df.iloc[idx]]. *)
Definition iloc (df : DataFrame) (idx : nat) : Bar := nth idx df nan_bar.

(** [series.iloc[start:stop]]: Python slices clamp to the series. *)
Definition islice {A : Type} (xs : list A) (start stop : nat) : list A :=
  firstn (stop - start) (skipn start xs).

(** [df[col].iloc[start:stop]]. *)
Definition column (col : Bar -> Q) (df : DataFrame) (start stop : nat) : list Q :=
  map col (islice df start stop).

(** The two NumPy functions used by [get_trend_strength]:
    [np.polyfit(np.arange(len(prices)), prices, 1)[0]] and [np.tanh]. *)
Class Numpy : Type := {
  np_polyfit_slope : list Q -> Q;
  np_tanh : Q -> Q
}.

(** ** patterns/candlestick_patterns.py *)

(** Indices are natural numbers, so the guards [idx < 0] of [is_doji],
    [is_hammer], [is_shooting_star] and [is_marubozu] never fire and are not
    written; [threshold] arguments are passed explicitly where the source
    relies on their defaults. *)
Module CandlestickPatterns.

Definition is_engulfing (df : DataFrame) (idx : nat) : bool * bool :=
  if (idx <? 1)%nat then (false, false)
  else
    let curr_open := Open (iloc df idx) in
    let curr_close := Close (iloc df idx) in
    let prev_open := Open (iloc df (idx - 1)) in
    let prev_close := Close (iloc df (idx - 1)) in
    let bullish_engulfing :=
      (prev_close <? prev_open) &&
      (curr_close >? curr_open) &&
      (curr_open <? prev_close) &&
      (curr_close >? prev_open) in
    let bearish_engulfing :=
      (prev_close >? prev_open) &&
      (curr_close <? curr_open) &&
      (curr_open >? prev_close) &&
      (curr_close <? prev_open) in
    (bullish_engulfing, bearish_engulfing).

Definition is_doji (df : DataFrame) (idx : nat) (threshold : Q) : bool :=
  let body_size := Qabs (Close (iloc df idx) - Open (iloc df idx)) in
  let high_low_range := High (iloc df idx) - Low (iloc df idx) in
  body_size <=? high_low_range * threshold.

Definition is_hammer (df : DataFrame) (idx : nat) : bool :=
  let body_size := Qabs (Close (iloc df idx) - Open (iloc df idx)) in
  let lower_wick :=
    Qmin (Open (iloc df idx)) (Close (iloc df idx)) - Low (iloc df idx) in
  let upper_wick :=
    High (iloc df idx) - Qmax (Open (iloc df idx)) (Close (iloc df idx)) in
  (lower_wick >? 2 * body_size) && (upper_wick <? 0.1 * body_size).

Definition is_shooting_star (df : DataFrame) (idx : nat) : bool :=
  let body_size := Qabs (Close (iloc df idx) - Open (iloc df idx)) in
  let lower_wick :=
    Qmin (Open (iloc df idx)) (Close (iloc df idx)) - Low (iloc df idx) in
  let upper_wick :=
    High (iloc df idx) - Qmax (Open (iloc df idx)) (Close (iloc df idx)) in
  (upper_wick >? 2 * body_size) && (lower_wick <? 0.1 * body_size).

Definition is_marubozu (df : DataFrame) (idx : nat) (threshold : Q)
  : bool * bool :=
  let open_price := Open (iloc df idx) in
  let close_price := Close (iloc df idx) in
  let high_price := High (iloc df idx) in
  let low_price := Low (iloc df idx) in
  let body_size := Qabs (close_price - open_price) in
  let total_range := high_price - low_price in
  if body_size <? total_range * 0.9 then (false, false)
  else
    let bullish_marubozu :=
      (close_price >? open_price) &&
      (high_price - close_price <=? threshold * body_size) &&
      (open_price - low_price <=? threshold * body_size) in
    let bearish_marubozu :=
      (close_price <? open_price) &&
      (high_price - open_price <=? threshold * body_size) &&
      (close_price - low_price <=? threshold * body_size) in
    (bullish_marubozu, bearish_marubozu).

End CandlestickPatterns.

(** ** patterns/momentum_patterns.py *)

Module MomentumPatterns.

Definition is_breakout_candle (df : DataFrame) (idx lookback : nat)
  : bool * bool :=
  if (idx <? lookback)%nat then (false, false)
  else
    let candle_sizes :=
      map (fun b => Qabs (Close b - Open b)) (islice df (idx - lookback) idx) in
    let avg_size := mean candle_sizes in
    let current_size := Qabs (Close (iloc df idx) - Open (iloc df idx)) in
    let is_large_candle := current_size >? 2 * avg_size in
    let lookback_high := series_max (column High df (idx - lookback) idx) in
    let lookback_low := series_min (column Low df (idx - lookback) idx) in
    let consolidation_range := lookback_high - lookback_low in
    let avg_price := mean (column Close df (idx - lookback) idx) in
    let is_consolidation := consolidation_range <? 0.2 * avg_price in
    if negb (is_large_candle && is_consolidation) then (false, false)
    else
      let bullish_breakout :=
        (Close (iloc df idx) >? Open (iloc df idx)) &&
        (Close (iloc df idx) >? lookback_high) in
      let bearish_breakout :=
        (Close (iloc df idx) <? Open (iloc df idx)) &&
        (Close (iloc df idx) <? lookback_low) in
      (bullish_breakout, bearish_breakout).

Definition is_momentum_confirmed (df : DataFrame) (idx : nat)
    (volume_threshold : Q) : bool :=
  if (idx <? 20)%nat then false
  else
    let avg_volume := mean (column Volume df (idx - 20) idx) in
    let current_volume := Volume (iloc df idx) in
    current_volume >? volume_threshold * avg_volume.

(** The two returns divide by the closes 5 and 20 bars back.  For a zero
    reference close NumPy's division gives inf or nan (and the function
    then 1.0, -1.0 or nan), where [Q]'s gives 0: the model is the source's
    value for reference closes that are not zero. *)
Definition calculate_momentum_score (df : DataFrame) (idx : nat) : Q :=
  if (idx <? 20)%nat then 0
  else
    let short_term_return :=
      (Close (iloc df idx) - Close (iloc df (idx - 5)))
      / Close (iloc df (idx - 5)) in
    let medium_term_return :=
      (Close (iloc df idx) - Close (iloc df (idx - 20)))
      / Close (iloc df (idx - 20)) in
    let momentum_score :=
      0.7 * short_term_return + 0.3 * medium_term_return in
    Qmax (Qmin momentum_score 1) (-1).

End MomentumPatterns.

(** ** indicators/momentum_indicators.py *)

Module MomentumIndicators.

(** The dictionary returned by [get_momentum_signals]. *)
Record Signals : Set := mkSignals {
  rsi_overbought : bool;
  rsi_oversold : bool;
  macd_bullish_cross : bool;
  macd_bearish_cross : bool;
  bb_upper_break : bool;
  bb_lower_break : bool
}.

Definition get_momentum_signals (df : DataFrame) (idx : nat) : Signals :=
  if (idx <? 1)%nat then mkSignals false false false false false false
  else
    let current_rsi := RSI (iloc df idx) in
    let prev_hist := MACD_Hist (iloc df (idx - 1)) in
    let curr_hist := MACD_Hist (iloc df idx) in
    let close := Close (iloc df idx) in
    mkSignals
      (current_rsi >? 70)
      (current_rsi <? 30)
      ((prev_hist <? 0) && (curr_hist >? 0))
      ((prev_hist >? 0) && (curr_hist <? 0))
      (close >? BB_Upper (iloc df idx))
      (close <? BB_Lower (iloc df idx)).

Definition get_trend_strength `{np : Numpy} (df : DataFrame) (idx window : nat)
  : Q :=
  if (idx <? window)%nat then 0
  else
    let prices := column Close df (idx - window) (idx + 1) in
    let slope := np_polyfit_slope prices in
    let normalized_slope := np_tanh (slope * 100) in
    normalized_slope.

End MomentumIndicators.

(** ** indicators/volatility_indicators.py *)

Module VolatilityIndicators.

Record VolatilityParams : Set := mkVolatilityParams {
  atr_period : nat;
  volatility_lookback : nat;
  std_dev_period : nat;
  bollinger_bands_std : Q;
  minimum_atr_value : Q
}.

(** [VolatilityParams()] with the dataclass defaults. *)
Definition default_params : VolatilityParams :=
  mkVolatilityParams 14 20 20 2.0 0.001.

Record t : Set := mk { params : VolatilityParams }.

(** The dictionary [regime_multipliers] of [get_dynamic_stops]. *)
Definition regime_multipliers (regime : VolatilityRegime) : Q :=
  match regime with
  | LowVolatility => 1.5
  | NormalVolatility => 1.0
  | HighVolatility => 0.75
  end.

(** Returns [(stop_distance, take_profit_distance)], or [None] for the
    source's [(None, None)].  The ATR of the bar is a number: on the rows
    where TA-Lib leaves it NaN, Python's [max(nan, minimum_atr_value)] is
    nan and the source returns [(nan, nan)]. *)
Definition get_dynamic_stops (self : t) (df : DataFrame) (idx : nat)
    (base_multiplier : Q) : option (Q * Q) :=
  if (idx <? 1)%nat then None
  else
    let current_atr :=
      Qmax (ATR (iloc df idx)) (minimum_atr_value (params self)) in
    let regime := Volatility_Regime (iloc df idx) in
    let adjusted_multiplier := base_multiplier * regime_multipliers regime in
    let stop_distance := current_atr * adjusted_multiplier in
    let take_profit_distance := stop_distance * 2 in
    Some (stop_distance, take_profit_distance).

(** The dictionary [regime_adjustments] of
    [get_volatility_adjusted_position_size]. *)
Definition regime_adjustments (regime : VolatilityRegime) : Q :=
  match regime with
  | LowVolatility => 1.2
  | NormalVolatility => 1.0
  | HighVolatility => 0.8
  end.

Definition get_volatility_adjusted_position_size (self : t)
    (df : DataFrame) (idx : nat) (base_position min_size max_size : Q) : Q :=
  if (idx <? volatility_lookback (params self))%nat then base_position
  else
    let current_vol := Historical_Volatility (iloc df idx) in
    let avg_vol :=
      mean (column Historical_Volatility df
              (idx - volatility_lookback (params self)) idx) in
    let vol_ratio := avg_vol / Qmax current_vol 0.001 in
    let regime := Volatility_Regime (iloc df idx) in
    let adjusted_position :=
      base_position * vol_ratio * regime_adjustments regime in
    Qmax (Qmin adjusted_position max_size) min_size.

(** [pd.Series(x).rank(pct=True).iloc[-1]] on a window without missing
    values: the average rank of the last value among the values of the
    window (ties share the mean of their ranks), divided by their number. *)
Definition rank_pct_last (x : list Q) : Q :=
  let v := last x 0 in
  let smaller := length (filter (fun y => y <? v) x) in
  let equal := length (filter (fun y => Qeq_bool y v) x) in
  (inject_Z (Z.of_nat smaller) + (inject_Z (Z.of_nat equal) + 1) / 2)
  / inject_Z (Z.of_nat (length x)).

(** A value of the ATR column: [None] is NaN, as TA-Lib leaves the first
    [atr_period] rows. *)
Definition is_present (v : option Q) : bool :=
  match v with Some _ => true | None => false end.

Definition present_values (xs : list (option Q)) : list Q :=
  flat_map (fun v => match v with Some q => [q] | None => [] end) xs.

(** [df['ATR'].rolling(window=100).apply(...)] at row [idx]: missing until
    the window holds 100 values, none of them missing. *)
Definition atr_percentile (atr : list (option Q)) (idx : nat) : option Q :=
  if (idx + 1 <? 100)%nat then None
  else
    let window := islice atr (idx + 1 - 100) (idx + 1) in
    if forallb is_present window
    then Some (rank_pct_last (present_values window))
    else None.

(** The regime starts at 1 (normal) everywhere, is set to 0 (low) where the
    percentile is at most 0.25 and then to 2 (high) where it is at least
    0.75; a comparison with a missing percentile is false. *)
Definition _calculate_volatility_regime (atr : list (option Q))
  : list VolatilityRegime :=
  map (fun idx =>
         match atr_percentile atr idx with
         | Some pct =>
             if pct >=? 0.75 then HighVolatility
             else if pct <=? 0.25 then LowVolatility
             else NormalVolatility
         | None => NormalVolatility
         end)
      (seq 0 (length atr)).

(** A bound of [series.iloc[start:stop]] given as a Python integer: a
    negative bound counts from the end of the series, and the result is
    clipped to the series. *)
Definition slice_bound (n : nat) (i : Z) : nat :=
  Z.to_nat
    (Z.min (Z.of_nat n)
       (Z.max 0 (if (i <? 0)%Z then (i + Z.of_nat n)%Z else i))).

Definition islice_int {A : Type} (xs : list A) (start stop : Z) : list A :=
  islice xs (slice_bound (length xs) start) (slice_bound (length xs) stop).

(** Called with [idx] inside the frame.  The mean of an empty window
    ([lookback] 0) is NaN, and a comparison with NaN is false. *)
Definition is_volatility_breakout (self : t) (df : DataFrame) (idx : nat)
    (lookback : nat) (threshold : Q) : bool :=
  if (idx <? lookback)%nat then false
  else
    let current_atr := ATR (iloc df idx) in
    match column ATR df (idx - lookback) idx with
    | [] => false
    | window =>
        let avg_atr := mean window in
        current_atr >? avg_atr * threshold
    end.

Inductive AtrTrend : Set := Increasing | Decreasing.

(** The dictionary returned by [get_volatility_summary], key by key. *)
Record Summary : Set := mkSummary {
  summary_current_atr : Q;
  summary_atr_percentile : Q;
  summary_volatility_regime : VolatilityRegime;
  summary_historical_volatility : Q;
  summary_atr_trend : AtrTrend;
  summary_is_breakout : bool
}.

(** [SummaryReturned None] is the empty dictionary. *)
Inductive SummaryOutcome : Set :=
| SummaryReturned (summary : option Summary)
| SummaryIndexError.

(** [ATR_ROC] is the column of that name, which [calculate_all] adds to the
    frame and the engine never reads; it is passed beside [df].  The
    entries are evaluated in order: [df['ATR'].iloc[idx]] raises
    [IndexError] outside the frame, and so does [.iloc[-1]] on the rank of
    an empty slice [df['ATR'].iloc[idx-100:idx]]. *)
Definition get_volatility_summary (self : t) (df : DataFrame)
    (ATR_ROC : list Q) (idx : nat) : SummaryOutcome :=
  if (idx <? volatility_lookback (params self))%nat then SummaryReturned None
  else if (length df <=? idx)%nat then SummaryIndexError
  else
    match islice_int (map ATR df) (Z.of_nat idx - 100) (Z.of_nat idx) with
    | [] => SummaryIndexError
    | window =>
        SummaryReturned
          (Some (mkSummary
                   (ATR (iloc df idx))
                   (rank_pct_last window)
                   (Volatility_Regime (iloc df idx))
                   (Historical_Volatility (iloc df idx))
                   (if nth idx ATR_ROC 0 >? 0 then Increasing else Decreasing)
                   (is_volatility_breakout self df idx 20 1.5)))
    end.

End VolatilityIndicators.

(** The two sides of a position: the strings ['long'] and ['short']. *)
Inductive PositionType : Set := long | short.

(** ** strategy/entry_rules.py *)

Module EntryRules.

(** The pattern and momentum-indicator collaborators carry no state that
    the rules read; the volatility indicators carry their parameters. *)
Record t : Set := mk { volatility_indicators : VolatilityIndicators.t }.

(** Returns [(bullish_entry, bearish_entry)]; the [signal_details] trace
    is not consumed by the engine and is left out. *)
Definition check_entry_signals `{np : Numpy} (self : t) (df : DataFrame)
    (idx : nat) : bool * bool :=
  if (idx <? 20)%nat then (false, false)
  else
    let '(bull_engulf, bear_engulf) :=
      CandlestickPatterns.is_engulfing df idx in
    let is_doji := CandlestickPatterns.is_doji df idx 0.1 in
    let is_hammer := CandlestickPatterns.is_hammer df idx in
    let is_shooting_star := CandlestickPatterns.is_shooting_star df idx in
    let '(bull_marubozu, bear_marubozu) :=
      CandlestickPatterns.is_marubozu df idx 0.1 in
    let '(bull_breakout, bear_breakout) :=
      MomentumPatterns.is_breakout_candle df idx 20 in
    let momentum_confirmed :=
      MomentumPatterns.is_momentum_confirmed df idx 1.5 in
    let momentum_score := MomentumPatterns.calculate_momentum_score df idx in
    let indicator_signals :=
      MomentumIndicators.get_momentum_signals df idx in
    let trend_strength := MomentumIndicators.get_trend_strength df idx 50 in
    let bullish_entry :=
      (bull_engulf || (is_doji && (momentum_score >? 0)) ||
       is_hammer || bull_marubozu || bull_breakout) &&
      momentum_confirmed &&
      (trend_strength >? 0.3) &&
      negb (MomentumIndicators.rsi_overbought indicator_signals) in
    let bearish_entry :=
      (bear_engulf || (is_doji && (momentum_score <? 0)) ||
       is_shooting_star || bear_marubozu || bear_breakout) &&
      momentum_confirmed &&
      (trend_strength <? -0.3) &&
      negb (MomentumIndicators.rsi_oversold indicator_signals) in
    (bullish_entry, bearish_entry).

Definition calculate_position_size (self : t) (df : DataFrame) (idx : nat)
    (base_position : Q) : Q :=
  let momentum_score :=
    Qabs (MomentumPatterns.calculate_momentum_score df idx) in
  let momentum_factor := 0.5 + momentum_score * 0.5 in
  let vol_adjusted_size :=
    VolatilityIndicators.get_volatility_adjusted_position_size
      (volatility_indicators self) df idx base_position 0.25 2.0 in
  vol_adjusted_size * momentum_factor.

End EntryRules.

(** ** strategy/exit_rules.py *)

Module ExitRules.

Record t : Set := mk { volatility_indicators : VolatilityIndicators.t }.

(** Returns [should_exit]; the [exit_details] trace is left out. *)
Definition check_exit_signals `{np : Numpy} (self : t) (df : DataFrame)
    (idx : nat) (position_type : PositionType) : bool :=
  if (idx <? 1)%nat then false
  else
    let '(bull_engulf, bear_engulf) :=
      CandlestickPatterns.is_engulfing df idx in
    let is_shooting_star := CandlestickPatterns.is_shooting_star df idx in
    let is_hammer := CandlestickPatterns.is_hammer df idx in
    let momentum_score := MomentumPatterns.calculate_momentum_score df idx in
    let trend_strength := MomentumIndicators.get_trend_strength df idx 50 in
    let indicator_signals :=
      MomentumIndicators.get_momentum_signals df idx in
    match position_type with
    | long =>
        bear_engulf ||
        is_shooting_star ||
        ((momentum_score <? -0.3) && (trend_strength <? 0)) ||
        MomentumIndicators.macd_bearish_cross indicator_signals ||
        MomentumIndicators.rsi_overbought indicator_signals
    | short =>
        bull_engulf ||
        is_hammer ||
        ((momentum_score >? 0.3) && (trend_strength >? 0)) ||
        MomentumIndicators.macd_bullish_cross indicator_signals ||
        MomentumIndicators.rsi_oversold indicator_signals
    end.

Definition calculate_trailing_stop (self : t) (df : DataFrame) (idx : nat)
    (position_type : PositionType) (entry_price : Q) : Q :=
  if (idx <? 1)%nat then entry_price
  else
    match VolatilityIndicators.get_dynamic_stops
            (volatility_indicators self) df idx 2.0 with
    | Some (stop_distance, _) =>
        let current_price := Close (iloc df idx) in
        match position_type with
        | long =>
            let trail_level := current_price - stop_distance * 1.5 in
            Qmax trail_level (entry_price * 0.99)
        | short =>
            let trail_level := current_price + stop_distance * 1.5 in
            Qmin trail_level (entry_price * 1.01)
        end
    | None => entry_price (* not reached: [get_dynamic_stops] has the same guard *)
    end.

Definition should_move_stop_to_breakeven (self : t) (df : DataFrame)
    (idx : nat) (position_type : PositionType) (entry_price : Q) : bool :=
  if (idx <? 1)%nat then false
  else
    match VolatilityIndicators.get_dynamic_stops
            (volatility_indicators self) df idx 2.0 with
    | Some (_, take_profit_distance) =>
        let current_price := Close (iloc df idx) in
        match position_type with
        | long => current_price >=? entry_price + take_profit_distance * 0.5
        | short => current_price <=? entry_price - take_profit_distance * 0.5
        end
    | None => false (* not reached *)
    end.

End ExitRules.

(** ** backtester/backtest_engine.py *)

Definition PositionType_eqb (a b : PositionType) : bool :=
  match a, b with
  | long, long | short, short => true
  | _, _ => false
  end.

(** The dataclass [Position]. *)
Module Position.

Record t : Set := mk {
  type : PositionType;
  entry_price : Q;
  entry_time : Z;
  size : Q;
  stop_loss : Q;
  take_profit : Q;
  trailing_stop : Q;
  trade_id : nat
}.

(** [position.trailing_stop = v]. *)
Definition set_trailing_stop (p : t) (v : Q) : t :=
  mk (type p) (entry_price p) (entry_time p) (size p) (stop_loss p)
     (take_profit p) v (trade_id p).

End Position.

(** The strings ['Stop'], ['Target'] and ['Signal']. *)
Inductive ExitReason : Set := Stop | Target | Signal.

(** The dictionary appended to [self.trades] by [_close_position]. *)
Module Trade.

Record t : Set := mk {
  id : nat;
  type : PositionType;
  entry_time : Z;
  entry_price : Q;
  exit_time : Z;
  exit_price : Q;
  size : Q;
  pnl : Q;
  exit_reason : ExitReason
}.

End Trade.

(** A call either returns a value or raises. *)
Inductive PyError : Set := ZeroDivisionError.

Inductive outcome (A : Type) : Type :=
| Returned (a : A)
| Raised (e : PyError).

Arguments Returned {A} a.
Arguments Raised {A} e.

Module BacktestEngine.

(** The attributes of a [BacktestEngine] instance: the collaborators and the
    two constructor settings, then the state that [reset] reinitialises. *)
Record t : Set := mk {
  entry_rules : EntryRules.t;
  exit_rules : ExitRules.t;
  initial_capital : Q;
  position_size : Q;
  equity : Q;
  current_position : option Position.t;
  trades : list Trade.t;
  equity_curve : list Q;
  trade_count : nat
}.

(** The dictionary returned by [_generate_results]. *)
Record Results : Set := mkResults {
  r_initial_capital : Q;
  r_final_equity : Q;
  r_total_return : Q;
  r_trades : list Trade.t;
  r_equity_curve : list Q;
  r_trade_count : nat;
  r_win_rate : Q;
  r_average_trade : Q;
  r_max_drawdown : Q
}.

Definition reset (self : t) : t :=
  mk (entry_rules self) (exit_rules self)
     (initial_capital self) (position_size self)
     (initial_capital self) None [] [] 0.

Definition _open_position (self : t) (type : PositionType) (price : Q)
    (time : Z) (size stop_loss take_profit : Q) : t :=
  let trade_count := (trade_count self + 1)%nat in
  mk (entry_rules self) (exit_rules self)
     (initial_capital self) (position_size self)
     (equity self)
     (Some (Position.mk type price time size stop_loss take_profit
                        stop_loss trade_count))
     (trades self) (equity_curve self) trade_count.

Definition _close_position (self : t) (exit_price : Q) (exit_time : Z)
    (exit_reason : ExitReason) : t :=
  match current_position self with
  | None => self (* not reached: only called with an open position *)
  | Some position =>
      let pnl :=
        if PositionType_eqb (Position.type position) long
        then (exit_price - Position.entry_price position) * Position.size position
        else (Position.entry_price position - exit_price) * Position.size position in
      let trade :=
        Trade.mk (Position.trade_id position) (Position.type position)
                 (Position.entry_time position) (Position.entry_price position)
                 exit_time exit_price (Position.size position) pnl exit_reason in
      mk (entry_rules self) (exit_rules self)
         (initial_capital self) (position_size self)
         (equity self + pnl)
         None
         (trades self ++ [trade])
         (equity_curve self) (trade_count self)
  end.

(** [position.trailing_stop = new_trailing_stop] on the object that
    [self.current_position] refers to. *)
Definition set_current_position (self : t) (p : option Position.t) : t :=
  mk (entry_rules self) (exit_rules self)
     (initial_capital self) (position_size self)
     (equity self) p (trades self) (equity_curve self) (trade_count self).

Definition _check_position_exit `{np : Numpy} (self : t) (df : DataFrame)
    (idx : nat) : t :=
  match current_position self with
  | None => self (* not reached: [process_bar] tests the position first *)
  | Some position =>
      let current_bar := iloc df idx in
      let new_trailing_stop :=
        ExitRules.calculate_trailing_stop (exit_rules self) df idx
          (Position.type position) (Position.entry_price position) in
      let position := Position.set_trailing_stop position new_trailing_stop in
      let self := set_current_position self (Some position) in
      let hit_stop :=
        (PositionType_eqb (Position.type position) long &&
         (Low current_bar <=? Position.trailing_stop position)) ||
        (PositionType_eqb (Position.type position) short &&
         (High current_bar >=? Position.trailing_stop position)) in
      let hit_target :=
        (PositionType_eqb (Position.type position) long &&
         (High current_bar >=? Position.take_profit position)) ||
        (PositionType_eqb (Position.type position) short &&
         (Low current_bar <=? Position.take_profit position)) in
      let should_exit :=
        ExitRules.check_exit_signals (exit_rules self) df idx
          (Position.type position) in
      if hit_stop || hit_target || should_exit then
        let exit_price :=
          if hit_stop then Position.trailing_stop position
          else if hit_target then Position.take_profit position
          else Close current_bar in
        _close_position self exit_price (Time (iloc df idx))
          (if hit_stop then Stop else if hit_target then Target else Signal)
      else self
  end.

Definition _check_new_entry `{np : Numpy} (self : t) (df : DataFrame) (idx : nat)
    : t :=
  let '(bullish, bearish) :=
    EntryRules.check_entry_signals (entry_rules self) df idx in
  if bullish || bearish then
    let position_type := if bullish then long else short in
    let entry_price := Close (iloc df idx) in
    let size :=
      EntryRules.calculate_position_size (entry_rules self) df idx
        (position_size self) in
    match VolatilityIndicators.get_dynamic_stops
            (ExitRules.volatility_indicators (exit_rules self)) df idx 2.0 with
    | Some (stop_distance, take_profit_distance) =>
        let stop_loss :=
          if PositionType_eqb position_type long
          then entry_price - stop_distance
          else entry_price + stop_distance in
        let take_profit :=
          if PositionType_eqb position_type long
          then entry_price + take_profit_distance
          else entry_price - take_profit_distance in
        _open_position self position_type entry_price (Time (iloc df idx))
          size stop_loss take_profit
    | None => self (* not reached: a signal needs 20 <= idx *)
    end
  else self.

(** Returns the engine after the bar together with the equity snapshot. *)
Definition process_bar `{np : Numpy} (self : t) (df : DataFrame) (idx : nat)
    : t * Q :=
  let self :=
    match current_position self with
    | Some _ => _check_position_exit self df idx
    | None =>
        if (20 <=? idx)%nat then _check_new_entry self df idx else self
    end in
  (self, equity self).

(** [self.equity_curve.append(x)]. *)
Definition append_equity_curve (self : t) (x : Q) : t :=
  mk (entry_rules self) (exit_rules self)
     (initial_capital self) (position_size self)
     (equity self) (current_position self) (trades self)
     (equity_curve self ++ [x]) (trade_count self).

(** The body of the [for idx in range(len(df))] loop of [run], over the
    indices still to visit. *)
Fixpoint run_loop `{np : Numpy} (self : t) (df : DataFrame) (idxs : list nat) : t :=
  match idxs with
  | [] => self
  | idx :: rest =>
      let '(self, equity_snapshot) := process_bar self df idx in
      run_loop (append_equity_curve self equity_snapshot) df rest
  end.

(** [equity_curve.expanding().max()]. *)
Fixpoint expanding_max_from (m : Q) (xs : list Q) : list Q :=
  match xs with
  | [] => []
  | x :: rest => let m := Qmax m x in m :: expanding_max_from m rest
  end.

Definition expanding_max (xs : list Q) : list Q :=
  match xs with
  | [] => []
  | x :: rest => x :: expanding_max_from x rest
  end.

Definition _calculate_max_drawdown (equity_curve : list Q) : Q :=
  let rolling_max := expanding_max equity_curve in
  let drawdowns :=
    map (fun p => fst p - snd p) (combine equity_curve rolling_max) in
  Qabs (series_min drawdowns).

(** [x / n] between two [int]s: Python raises [ZeroDivisionError] when
    [n = 0]. *)
Definition int_div (x : nat) (n : nat) : outcome Q :=
  match n with
  | O => Raised ZeroDivisionError
  | S _ => Returned (inject_Z (Z.of_nat x) / inject_Z (Z.of_nat n))
  end.

(** [win_rate] divides two [int]s and raises on an empty ledger.
    [total_return], evaluated before it, divides floats: it can raise only
    when the ledger is empty and the initial capital is zero, where
    [win_rate] raises the same error. *)
Definition _generate_results (self : t) : outcome Results :=
  let equity_curve := equity_curve self in
  let total_return :=
    (equity self - initial_capital self) / initial_capital self in
  match int_div
          (length (filter (fun t => Trade.pnl t >? 0) (trades self)))
          (length (trades self)) with
  | Raised e => Raised e
  | Returned win_rate =>
      Returned
        (mkResults (initial_capital self) (equity self) total_return
           (trades self) equity_curve (length (trades self)) win_rate
           (mean (map Trade.pnl (trades self)))
           (_calculate_max_drawdown equity_curve))
  end.

(** Returns the engine as [run] leaves it and what the call produced. *)
Definition run `{np : Numpy} (self : t) (df : DataFrame) : t * outcome Results :=
  let self := reset self in
  let self := run_loop self df (seq 0 (length df)) in
  (self, _generate_results self).

End BacktestEngine.

(** * Views of the engine used by the statements *)

Section Views.

Context `{np : Numpy}.

Import BacktestEngine.

(** The stop distance in the words of the specification: the ATR floored at
    the minimum value, times the base multiplier, times the regime
    multiplier (low 1.5, normal 1.0, high 0.75). *)
Definition stop_distance_spec (minimum_atr atr base_multiplier : Q)
    (regime : VolatilityRegime) : Q :=
  Qmax atr minimum_atr * base_multiplier *
  match regime with
  | LowVolatility => 3 # 2
  | NormalVolatility => 1
  | HighVolatility => 3 # 4
  end.

(** The three exit tests of [_check_position_exit], on the position whose
    trailing stop has just been revised. *)
Definition hit_stop (position : Position.t) (current_bar : Bar) : bool :=
  (PositionType_eqb (Position.type position) long &&
   (Low current_bar <=? Position.trailing_stop position)) ||
  (PositionType_eqb (Position.type position) short &&
   (High current_bar >=? Position.trailing_stop position)).

Definition hit_target (position : Position.t) (current_bar : Bar) : bool :=
  (PositionType_eqb (Position.type position) long &&
   (High current_bar >=? Position.take_profit position)) ||
  (PositionType_eqb (Position.type position) short &&
   (Low current_bar <=? Position.take_profit position)).

(** The position as [_check_position_exit] leaves it when it stays open. *)
Definition revised (xr : ExitRules.t) (df : DataFrame) (idx : nat)
    (position : Position.t) : Position.t :=
  Position.set_trailing_stop position
    (ExitRules.calculate_trailing_stop xr df idx
       (Position.type position) (Position.entry_price position)).

(** The trade recorded when [position] is closed. *)
Definition closing_trade (position : Position.t) (exit_price : Q)
    (exit_time : Z) (exit_reason : ExitReason) : Trade.t :=
  Trade.mk (Position.trade_id position) (Position.type position)
    (Position.entry_time position) (Position.entry_price position)
    exit_time exit_price (Position.size position)
    (match Position.type position with
     | long => (exit_price - Position.entry_price position) * Position.size position
     | short => (Position.entry_price position - exit_price) * Position.size position
     end)
    exit_reason.

(** The stop and the target conditions of the specification, as propositions
    on a position and the current bar. *)
Definition stop_hit (position : Position.t) (current_bar : Bar) : Prop :=
  match Position.type position with
  | long => Low current_bar <= Position.trailing_stop position
  | short => Position.trailing_stop position <= High current_bar
  end.

Definition target_hit (position : Position.t) (current_bar : Bar) : Prop :=
  match Position.type position with
  | long => Position.take_profit position <= High current_bar
  | short => Low current_bar <= Position.take_profit position
  end.

(** [self'] is [self] with its position closed and [trade] recorded. *)
Definition closed_with (self self' : t) (trade : Trade.t) : Prop :=
  trades self' = trades self ++ [trade]
  /\ current_position self' = None
  /\ equity self' = equity self + Trade.pnl trade.

(** One iteration of the loop of [run]: process the bar, then sample the
    equity. *)
Definition bar_step (self : t) (df : DataFrame) (idx : nat) : t :=
  append_equity_curve (fst (process_bar self df idx))
    (snd (process_bar self df idx)).

(** The engine after the first [k] bars of a run. *)
Definition state_after (self : t) (df : DataFrame) (k : nat) : t :=
  run_loop (reset self) df (seq 0 k).

(** Which branch of [process_bar] a bar takes. *)
Inductive BarAction : Set := CheckExit | CheckEntry | NoAction.

Definition bar_action (self : t) (idx : nat) : BarAction :=
  match current_position self with
  | Some _ => CheckExit
  | None => if (20 <=? idx)%nat then CheckEntry else NoAction
  end.

(** The number of positions currently open: opened minus closed. *)
Definition open_positions (self : t) : nat :=
  trade_count self - length (trades self).

(** What a bar does to the ledger, the equity, the position and the trade
    counter, in each of its three outcomes. *)
Inductive bar_outcome (self self' : t) (idx : nat) : Prop :=
| bar_holds :
    trades self' = trades self ->
    equity self' = equity self ->
    trade_count self' = trade_count self ->
    (current_position self = None -> current_position self' = None) ->
    (forall p, current_position self = Some p ->
       exists p', current_position self' = Some p'
                  /\ Position.trade_id p' = Position.trade_id p
                  /\ Position.take_profit p' = Position.take_profit p) ->
    bar_outcome self self' idx
| bar_opens (p : Position.t) :
    (20 <= idx)%nat ->
    current_position self = None ->
    current_position self' = Some p ->
    trades self' = trades self ->
    equity self' = equity self ->
    trade_count self' = S (trade_count self) ->
    Position.trade_id p = S (trade_count self) ->
    Position.trailing_stop p = Position.stop_loss p ->
    bar_outcome self self' idx
| bar_closes (p : Position.t) (trade : Trade.t) :
    current_position self = Some p ->
    current_position self' = None ->
    trades self' = trades self ++ [trade] ->
    equity self' = equity self + Trade.pnl trade ->
    trade_count self' = trade_count self ->
    Trade.id trade = Position.trade_id p ->
    Trade.pnl trade
    = match Trade.type trade with
      | long =>
          (Trade.exit_price trade - Trade.entry_price trade) * Trade.size trade
      | short =>
          (Trade.entry_price trade - Trade.exit_price trade) * Trade.size trade
      end ->
    bar_outcome self self' idx.

(** The collaborators and the two settings are never reassigned. *)
Definition same_settings (a b : t) : Prop :=
  entry_rules a = entry_rules b
  /\ exit_rules a = exit_rules b
  /\ initial_capital a = initial_capital b
  /\ position_size a = position_size b.

(** The profit of a trade recomputed from its own record. *)
Definition pnl_by_side (trade : Trade.t) : Q :=
  match Trade.type trade with
  | long =>
      (Trade.exit_price trade - Trade.entry_price trade) * Trade.size trade
  | short =>
      (Trade.entry_price trade - Trade.exit_price trade) * Trade.size trade
  end.

(** Equity is the initial capital plus the profit of every recorded trade,
    and every recorded profit follows the formula. *)
Definition books_balance (self : t) : Prop :=
  equity self - initial_capital self == Qsum (map Trade.pnl (trades self))
  /\ Forall (fun trade => Trade.pnl trade = pnl_by_side trade) (trades self).

(** Every position opened so far is either recorded in the ledger or is the
    one currently open, which carries the latest trade id. *)
Definition one_position (self : t) : Prop :=
  match current_position self with
  | Some p =>
      trade_count self = S (length (trades self))
      /\ Position.trade_id p = trade_count self
  | None => trade_count self = length (trades self)
  end.





(** The closes that [calculate_momentum_score] divides by on bar [idx] are
    not zero (no division happens during the first 20 bars). *)
Definition reference_closes_nonzero (df : DataFrame) (idx : nat) : Prop :=
  (idx < 20)%nat
  \/ (~ Close (iloc df (idx - 5)) == 0 /\ ~ Close (iloc df (idx - 20)) == 0).

End Views.

(** Two implementations of the NumPy functions give the rules the same
    answers on bar [idx]. *)
Definition signals_agree (np1 np2 : Numpy) (er : EntryRules.t)
    (xr : ExitRules.t) (df : DataFrame) (idx : nat) : Prop :=
  EntryRules.check_entry_signals (np := np1) er df idx
  = EntryRules.check_entry_signals (np := np2) er df idx
  /\ forall position_type,
       ExitRules.check_exit_signals (np := np1) xr df idx position_type
       = ExitRules.check_exit_signals (np := np2) xr df idx position_type.

(** * Sample data *)

(** The engulfing fixture of the specification (a red candle 10 to 8, then a
    green candle 7 to 11), and the same geometry with the colours swapped. *)
Definition candle (o h l c : Q) : Bar :=
  mkBar 0%Z o h l c 0 0 0 0 0 0 0 NormalVolatility.

Definition engulfing_fixture : DataFrame :=
  [candle 10 10 8 8; candle 7 11 7 11].

Definition engulfing_fixture_swapped : DataFrame :=
  [candle 8 10 8 10; candle 11 11 7 7].

(** The least-squares slope of [ys] against 0, 1, ..., the value
    [np.polyfit] approximates. *)
Definition least_squares_slope (ys : list Q) : Q :=
  let n := inject_Z (Z.of_nat (length ys)) in
  let xs := map (fun i => inject_Z (Z.of_nat i)) (seq 0 (length ys)) in
  let sx := Qsum xs in
  let sy := Qsum ys in
  let sxy := Qsum (map (fun p => fst p * snd p) (combine xs ys)) in
  let sxx := Qsum (map (fun x => x * x) xs) in
  Qred ((n * sxy - sx * sy) / (n * sxx - sx * sx)).

(** A rational stand-in for [np.tanh] in executed examples: odd, increasing,
    with values strictly between -1 and 1. *)
Definition rational_squash (x : Q) : Q := Qred (x / (1 + Qabs x)).

Definition sample_numpy : Numpy :=
  {| np_polyfit_slope := least_squares_slope; np_tanh := rational_squash |}.

(** Rows of the sample frame: RSI 60, MACD histogram 1, Bollinger bands
    0 and 1000, ATR 2, historical volatility 0.2, normal regime. *)
Definition sample_bar (i : nat) (o h l c v : Q) : Bar :=
  mkBar (Z.of_nat i) o h l c v 60 1 1000 0 2 0.2 NormalVolatility.

(** Fifty flat candles climbing one point a bar from 100, on volume 1000. *)
Definition ramp_bar (i : nat) : Bar :=
  let p := inject_Z (100 + Z.of_nat i) in
  sample_bar i p (p + 1) (p - 1) p 1000.

(** Bar 50 is a bullish marubozu on double volume (a long entry at 160);
    bars 51 and 52 stay between the stop and the target; bar 53 falls
    through the stop. *)
Definition sample_df : DataFrame :=
  map ramp_bar (seq 0 50)
  ++ [ sample_bar 50 150 160 150 160 2000;
       sample_bar 51 166 167.5 165.5 167 1000;
       sample_bar 52 166 166.5 164.5 165 1000;
       sample_bar 53 164 164 157 158 1000 ].

Definition default_rules : VolatilityIndicators.t :=
  VolatilityIndicators.mk VolatilityIndicators.default_params.

(** [BacktestEngine(entry_rules, exit_rules)] with the default capital
    100000 and position size 0.1. *)
Definition sample_engine : BacktestEngine.t :=
  BacktestEngine.reset
    (BacktestEngine.mk (EntryRules.mk default_rules) (ExitRules.mk default_rules)
       100000 0.1 0 None [] [] 0).

Definition Qred_position (p : Position.t) : Position.t :=
  Position.mk (Position.type p) (Qred (Position.entry_price p))
    (Position.entry_time p) (Qred (Position.size p))
    (Qred (Position.stop_loss p)) (Qred (Position.take_profit p))
    (Qred (Position.trailing_stop p)) (Position.trade_id p).

(** The sample engine after the first [k] bars of the sample frame. *)
Definition sample_state (k : nat) : BacktestEngine.t :=
  state_after (np := sample_numpy) sample_engine sample_df k.

(** The position opened on bar 50 of the sample run, as stored on that bar
    and as stored after bars 51 and 52. *)
Definition sample_position_at (k : nat) : Position.t :=
  match BacktestEngine.current_position (sample_state k) with
  | Some p => p
  | None => Position.mk long 0 0 0 0 0 0 0
  end.

(** The scenario of the specification: a long whose revised trailing stop is
    95 (Close 104 less 1.5 stop distances of 6) and whose take-profit is
    110, on a bar with Low 94 and High 112. *)
Definition stop_priority_df : DataFrame :=
  [ sample_bar 0 100 101 99 100 1000;
    mkBar 1 100 112 94 104 1000 60 1 1000 0 3 0.2 NormalVolatility ].

Definition stop_priority_engine : BacktestEngine.t :=
  BacktestEngine._open_position sample_engine long 95 0 1 87.5 110.

(** A long entered at 100 with its stop loss, and so its stored trailing
    stop, at 95 and its take-profit at 110 (a stop distance of 5), on a bar
    with Low 94, High 112, Close 100 and ATR 2: the trailing stop
    recomputed on that bar is 99. *)
Definition stored_stop_df : DataFrame :=
  [ sample_bar 0 100 101 99 100 1000;
    mkBar 1 100 112 94 100 1000 60 1 1000 0 2 0.2 NormalVolatility ].

Definition stored_stop_engine : BacktestEngine.t :=
  BacktestEngine._open_position sample_engine long 100 0 1 95 110.

(** A long entered at 90 whose stored trailing stop has been raised to 95,
    with its take-profit at 110, on a bar with Low 94, High 112, Close 99
    and ATR 2: the trailing stop recomputed on that bar is 93. *)
Definition raised_stop_df : DataFrame :=
  [ sample_bar 0 100 101 99 100 1000;
    mkBar 1 100 112 94 99 1000 60 1 1000 0 2 0.2 NormalVolatility ].

Definition raised_stop_engine : BacktestEngine.t :=
  BacktestEngine.set_current_position
    (BacktestEngine._open_position sample_engine long 90 0 1 80 110)
    (Some (Position.mk long 90 0 1 80 110 95 1)).

(** The trade a bar adds to an empty ledger. *)
Definition first_trade (self : BacktestEngine.t) : Trade.t :=
  nth 0 (BacktestEngine.trades self) (Trade.mk 0 long 0 0 0 0 0 0 Signal).


(** A frame whose second bar has ATR 2 in the high-volatility regime. *)
Definition high_regime_df : DataFrame :=
  [ sample_bar 0 100 101 99 100 1000;
    mkBar 1 100 101 99 100 1000 60 1 1000 0 2 0.2 HighVolatility ].

(** A frame whose second bar has an RSI of 80. *)
Definition overbought_df : DataFrame :=
  [ sample_bar 0 100 101 99 100 1000;
    mkBar 1 100 101 99 100 1000 80 1 1000 0 2 0.2 NormalVolatility ].

(** * Views used by the further properties *)

(** How [_check_position_exit] fills an exit on [current_bar] for the
    position [p] (its trailing stop already revised): the reason and the
    price. *)
Inductive exit_fill (p : Position.t) (current_bar : Bar)
  : ExitReason -> Q -> Prop :=
| fill_stop :
    hit_stop p current_bar = true ->
    exit_fill p current_bar Stop (Position.trailing_stop p)
| fill_target :
    hit_stop p current_bar = false ->
    hit_target p current_bar = true ->
    exit_fill p current_bar Target (Position.take_profit p)
| fill_signal :
    hit_stop p current_bar = false ->
    hit_target p current_bar = false ->
    exit_fill p current_bar Signal (Close current_bar).


(** A trade closed by the stop is filled within one per cent of its entry
    price. *)
Definition stop_within_one_percent (trade : Trade.t) : Prop :=
  Trade.exit_reason trade = Stop ->
  match Trade.type trade with
  | long => Trade.entry_price trade * 0.99 <= Trade.exit_price trade
  | short => Trade.exit_price trade <= Trade.entry_price trade * 1.01
  end.

(** The series [equity_curve - rolling_max] of [_calculate_max_drawdown]. *)
Definition drawdowns (xs : list Q) : list Q :=
  map (fun p => fst p - snd p) (combine xs (BacktestEngine.expanding_max xs)).

(** The ids recorded in the ledger are 1, 2, 3, ... in order. *)
Definition ids_in_order (self : BacktestEngine.t) : Prop :=
  map Trade.id (BacktestEngine.trades self)
  = seq 1 (length (BacktestEngine.trades self)).

(** An ATR column of 100 rows rising by one a row. *)
Definition rising_atr : list (option Q) :=
  map (fun j => Some (inject_Z (Z.of_nat j))) (seq 0 100).

(** A frame of 120 bars climbing one point a bar. *)
Definition long_ramp_df : DataFrame := map ramp_bar (seq 0 120).

(** * Properties *)

(** ** Reflection of the comparison operators *)

Lemma Qleb_le (x y : Q) : (x <=? y) = true <-> x <= y.
Proof. unfold Qleb. apply Qle_bool_iff. Qed.

Lemma Qleb_gt (x y : Q) : (x <=? y) = false <-> y < x.
Proof.
  unfold Qleb. split; intro E.
  - apply Qnot_le_lt. intro L. apply Qle_bool_iff in L. congruence.
  - destruct (Qle_bool x y) eqn:B; trivial.
    apply Qle_bool_iff in B. lra.
Qed.

Lemma Qltb_lt (x y : Q) : (x <? y) = true <-> x < y.
Proof. unfold Qltb. rewrite negb_true_iff. apply (Qleb_gt y x). Qed.

Lemma Qltb_ge (x y : Q) : (x <? y) = false <-> y <= x.
Proof. unfold Qltb. rewrite negb_false_iff. apply (Qleb_le y x). Qed.

Lemma Qgeb_ge (x y : Q) : (x >=? y) = true <-> y <= x.
Proof. unfold Qgeb. apply Qleb_le. Qed.

Lemma Qgeb_lt (x y : Q) : (x >=? y) = false <-> x < y.
Proof. unfold Qgeb. apply Qleb_gt. Qed.

Lemma Qgtb_gt (x y : Q) : (x >? y) = true <-> y < x.
Proof. unfold Qgtb. apply Qltb_lt. Qed.

Lemma Qgtb_le (x y : Q) : (x >? y) = false <-> x <= y.
Proof. unfold Qgtb. apply Qltb_ge. Qed.

(** Turn every boolean comparison among the hypotheses into its
    proposition. *)
Ltac qreflect :=
  repeat match goal with
  | H : (_ && _) = true |- _ => apply andb_true_iff in H; destruct H
  | H : (_ <=? _) = true |- _ => apply Qleb_le in H
  | H : (_ <=? _) = false |- _ => apply Qleb_gt in H
  | H : (_ <? _) = true |- _ => apply Qltb_lt in H
  | H : (_ <? _) = false |- _ => apply Qltb_ge in H
  | H : (_ >=? _) = true |- _ => apply Qgeb_ge in H
  | H : (_ >=? _) = false |- _ => apply Qgeb_lt in H
  | H : (_ >? _) = true |- _ => apply Qgtb_gt in H
  | H : (_ >? _) = false |- _ => apply Qgtb_le in H
  end.

(** ** Candlestick patterns *)

Lemma is_engulfing_not_both (df : DataFrame) (idx : nat) :
  fst (CandlestickPatterns.is_engulfing df idx)
  && snd (CandlestickPatterns.is_engulfing df idx) = false.
Proof.
  unfold CandlestickPatterns.is_engulfing.
  destruct (idx <? 1)%nat; [reflexivity|]. cbn [fst snd].
  apply not_true_is_false. intro B. qreflect. lra.
Qed.

(** C8: [is_engulfing] never answers bullish and bearish together; on a red
    bar (Open 10, Close 8) followed by a green bar (Open 7, Close 11) it
    answers (bullish, not bearish); on a green bar (Open 8, Close 10)
    followed by a red bar (Open 11, Close 7) it answers (not bullish,
    bearish). *)
Theorem is_engulfing_exclusive_and_symmetric (df : DataFrame) (idx : nat) :
  (fst (CandlestickPatterns.is_engulfing df idx)
   && snd (CandlestickPatterns.is_engulfing df idx) = false)
  /\ ((1 <= idx)%nat ->
      Open (iloc df (idx - 1)) == 10 -> Close (iloc df (idx - 1)) == 8 ->
      Open (iloc df idx) == 7 -> Close (iloc df idx) == 11 ->
      CandlestickPatterns.is_engulfing df idx = (true, false))
  /\ ((1 <= idx)%nat ->
      Open (iloc df (idx - 1)) == 8 -> Close (iloc df (idx - 1)) == 10 ->
      Open (iloc df idx) == 11 -> Close (iloc df idx) == 7 ->
      CandlestickPatterns.is_engulfing df idx = (false, true)).
Proof.
  split; [apply is_engulfing_not_both|].
  unfold CandlestickPatterns.is_engulfing.
  split; intros Hidx Ho1 Hc1 Ho2 Hc2;
    (destruct (Nat.ltb_spec idx 1) as [Hlt|_]; [lia|]).
  - assert (B1 : (Close (iloc df (idx - 1)) <? Open (iloc df (idx - 1))) = true)
      by (apply Qltb_lt; lra).
    assert (B2 : (Close (iloc df idx) >? Open (iloc df idx)) = true)
      by (apply Qgtb_gt; lra).
    assert (B3 : (Open (iloc df idx) <? Close (iloc df (idx - 1))) = true)
      by (apply Qltb_lt; lra).
    assert (B4 : (Close (iloc df idx) >? Open (iloc df (idx - 1))) = true)
      by (apply Qgtb_gt; lra).
    assert (B5 : (Close (iloc df (idx - 1)) >? Open (iloc df (idx - 1))) = false)
      by (apply Qgtb_le; lra).
    cbv zeta. rewrite B1, B2, B3, B4, B5. reflexivity.
  - assert (B1 : (Close (iloc df (idx - 1)) >? Open (iloc df (idx - 1))) = true)
      by (apply Qgtb_gt; lra).
    assert (B2 : (Close (iloc df idx) <? Open (iloc df idx)) = true)
      by (apply Qltb_lt; lra).
    assert (B3 : (Open (iloc df idx) >? Close (iloc df (idx - 1))) = true)
      by (apply Qgtb_gt; lra).
    assert (B4 : (Close (iloc df idx) <? Open (iloc df (idx - 1))) = true)
      by (apply Qltb_lt; lra).
    assert (B5 : (Close (iloc df (idx - 1)) <? Open (iloc df (idx - 1))) = false)
      by (apply Qltb_ge; lra).
    cbv zeta. rewrite B1, B2, B3, B4, B5. reflexivity.
Qed.

Lemma is_engulfing_exclusive_and_symmetric_witness :
  CandlestickPatterns.is_engulfing engulfing_fixture 1 = (true, false)
  /\ CandlestickPatterns.is_engulfing engulfing_fixture_swapped 1 = (false, true).
Proof.
  split.
  - apply (proj1 (proj2 (is_engulfing_exclusive_and_symmetric
                           engulfing_fixture 1))); [lia | reflexivity ..].
  - apply (proj2 (proj2 (is_engulfing_exclusive_and_symmetric
                           engulfing_fixture_swapped 1))); [lia | reflexivity ..].
Defined.

(** ** Dynamic stops *)

Lemma get_dynamic_stops_some (vi : VolatilityIndicators.t) (df : DataFrame)
    (idx : nat) (base_multiplier : Q) :
  (1 <= idx)%nat ->
  VolatilityIndicators.get_dynamic_stops vi df idx base_multiplier =
  Some (Qmax (ATR (iloc df idx))
             (VolatilityIndicators.minimum_atr_value
                (VolatilityIndicators.params vi))
        * (base_multiplier
           * VolatilityIndicators.regime_multipliers
               (Volatility_Regime (iloc df idx))),
        Qmax (ATR (iloc df idx))
             (VolatilityIndicators.minimum_atr_value
                (VolatilityIndicators.params vi))
        * (base_multiplier
           * VolatilityIndicators.regime_multipliers
               (Volatility_Regime (iloc df idx))) * 2).
Proof.
  intro Hidx. unfold VolatilityIndicators.get_dynamic_stops.
  destruct (Nat.ltb_spec idx 1); [lia | reflexivity].
Qed.

Lemma regime_multipliers_spec (base_multiplier m : Q) (regime : VolatilityRegime) :
  m * (base_multiplier * VolatilityIndicators.regime_multipliers regime)
  == m * base_multiplier *
     match regime with
     | LowVolatility => 3 # 2
     | NormalVolatility => 1
     | HighVolatility => 3 # 4
     end.
Proof. destruct regime; cbn [VolatilityIndicators.regime_multipliers]; lra. Qed.

Lemma Qmax_eq_l (x m : Q) : m <= x -> Qmax x m == x.
Proof. intro L. apply Q.max_l. exact L. Qed.

(** C6: from the second bar on, [get_dynamic_stops] returns a stop distance
    equal to the floored ATR times the base multiplier times the regime
    multiplier and a take-profit distance of exactly twice that; with ATR 2,
    base multiplier 2 and the high regime they are 3 and 6; and the trailing
    stop (base multiplier 2, its default) is the larger of Close minus 1.5
    stop distances and 0.99 entry for a long, the smaller of Close plus 1.5
    stop distances and 1.01 entry for a short. *)
Theorem dynamic_stops_and_trailing_level (xr : ExitRules.t) (df : DataFrame)
    (idx : nat) (base_multiplier entry_price : Q) :
  (1 <= idx)%nat ->
  let vi := ExitRules.volatility_indicators xr in
  let minimum_atr :=
    VolatilityIndicators.minimum_atr_value (VolatilityIndicators.params vi) in
  let atr := ATR (iloc df idx) in
  let regime := Volatility_Regime (iloc df idx) in
  (exists stop_distance take_profit_distance,
      VolatilityIndicators.get_dynamic_stops vi df idx base_multiplier
      = Some (stop_distance, take_profit_distance)
      /\ stop_distance
         == stop_distance_spec minimum_atr atr base_multiplier regime
      /\ take_profit_distance == 2 * stop_distance
      /\ (atr == 2 -> minimum_atr <= 2 -> base_multiplier == 2 ->
          regime = HighVolatility ->
          stop_distance == 3 /\ take_profit_distance == 6))
  /\ ExitRules.calculate_trailing_stop xr df idx long entry_price
     == Qmax (Close (iloc df idx)
              - (3 # 2) * stop_distance_spec minimum_atr atr 2 regime)
             (entry_price * (99 # 100))
  /\ ExitRules.calculate_trailing_stop xr df idx short entry_price
     == Qmin (Close (iloc df idx)
              + (3 # 2) * stop_distance_spec minimum_atr atr 2 regime)
             (entry_price * (101 # 100)).
Proof.
  intros Hidx vi minimum_atr atr regime.
  split; [|split].
  - eexists. eexists. split; [apply get_dynamic_stops_some; exact Hidx|].
    fold vi minimum_atr atr regime. unfold stop_distance_spec.
    split; [apply regime_multipliers_spec|]. split; [lra|].
    intros Ha Hm Hb Hr. rewrite Hr.
    cbn [VolatilityIndicators.regime_multipliers].
    rewrite (Qmax_eq_l atr minimum_atr) by lra. rewrite Ha, Hb.
    split; reflexivity.
  - unfold ExitRules.calculate_trailing_stop.
    destruct (Nat.ltb_spec idx 1); [lia|].
    rewrite get_dynamic_stops_some by exact Hidx.
    fold vi minimum_atr atr regime. unfold stop_distance_spec.
    apply Q.max_compat; [|reflexivity].
    rewrite regime_multipliers_spec. destruct regime; lra.
  - unfold ExitRules.calculate_trailing_stop.
    destruct (Nat.ltb_spec idx 1); [lia|].
    rewrite get_dynamic_stops_some by exact Hidx.
    fold vi minimum_atr atr regime. unfold stop_distance_spec.
    apply Q.min_compat; [|reflexivity].
    rewrite regime_multipliers_spec. destruct regime; lra.
Qed.

(** ** One bar of the engine *)

Section EngineSteps.

Context `{np : Numpy}.

Import BacktestEngine.

Lemma _close_position_open (self : t) (position : Position.t)
    (exit_price : Q) (exit_time : Z) (exit_reason : ExitReason) :
  current_position self = Some position ->
  _close_position self exit_price exit_time exit_reason
  = mk (entry_rules self) (exit_rules self)
       (initial_capital self) (position_size self)
       (equity self
        + Trade.pnl (closing_trade position exit_price exit_time exit_reason))
       None
       (trades self
        ++ [closing_trade position exit_price exit_time exit_reason])
       (equity_curve self) (trade_count self).
Proof.
  intro Hp. unfold _close_position, closing_trade. rewrite Hp.
  destruct (Position.type position); reflexivity.
Qed.

Lemma _check_position_exit_open (self : t) (df : DataFrame) (idx : nat)
    (position : Position.t) :
  current_position self = Some position ->
  let position' := revised (exit_rules self) df idx position in
  let current_bar := iloc df idx in
  let stop := hit_stop position' current_bar in
  let target := hit_target position' current_bar in
  let signal :=
    ExitRules.check_exit_signals (exit_rules self) df idx
      (Position.type position) in
  _check_position_exit self df idx
  = if stop || target || signal
    then _close_position (set_current_position self (Some position'))
           (if stop then Position.trailing_stop position'
            else if target then Position.take_profit position'
            else Close current_bar)
           (Time current_bar)
           (if stop then Stop else if target then Target else Signal)
    else set_current_position self (Some position').
Proof.
  intro Hp. unfold _check_position_exit. rewrite Hp. reflexivity.
Qed.

(** While a position is open, a bar either leaves it open with its trailing
    stop revised, or closes it and records one trade. *)
Lemma process_bar_open (self : t) (df : DataFrame) (idx : nat)
    (position : Position.t) :
  current_position self = Some position ->
  let position' := revised (exit_rules self) df idx position in
  fst (process_bar self df idx) = set_current_position self (Some position')
  \/ exists exit_price exit_reason,
       fst (process_bar self df idx)
       = _close_position (set_current_position self (Some position'))
           exit_price (Time (iloc df idx)) exit_reason.
Proof.
  intros Hp position'. unfold process_bar. rewrite Hp. cbn [fst].
  rewrite (_check_position_exit_open self df idx position Hp).
  fold position'.
  destruct (_ || _ || _); [right; eauto | left; reflexivity].
Qed.

(** With no position open, a bar either changes nothing or (from bar 20 on)
    opens a position at the close, sized by [calculate_position_size] and
    protected by the dynamic stops of that bar. *)
Lemma process_bar_flat (self : t) (df : DataFrame) (idx : nat) :
  current_position self = None ->
  fst (process_bar self df idx) = self
  \/ ((20 <= idx)%nat
      /\ exists position_type stop_loss take_profit,
           fst (process_bar self df idx)
           = _open_position self position_type (Close (iloc df idx))
               (Time (iloc df idx))
               (EntryRules.calculate_position_size (entry_rules self) df idx
                  (position_size self))
               stop_loss take_profit).
Proof.
  intro Hp. unfold process_bar. rewrite Hp. cbn [fst].
  destruct (Nat.leb_spec 20 idx) as [Hidx|Hidx]; [|left; reflexivity].
  unfold _check_new_entry.
  destruct (EntryRules.check_entry_signals _ _ _) as [bullish bearish].
  destruct (bullish || bearish); [|left; reflexivity].
  destruct (VolatilityIndicators.get_dynamic_stops _ _ _ _) as [[sd tp]|];
    [|left; reflexivity].
  right. split; [exact Hidx|]. eauto.
Qed.

Lemma snd_process_bar (self : t) (df : DataFrame) (idx : nat) :
  snd (process_bar self df idx) = equity (fst (process_bar self df idx)).
Proof. reflexivity. Qed.

End EngineSteps.

(** ** Exit priority *)

Section ExitPriority.

Context `{np : Numpy}.

Import BacktestEngine.

Lemma hit_stop_iff (position : Position.t) (current_bar : Bar) :
  hit_stop position current_bar = true <-> stop_hit position current_bar.
Proof.
  unfold hit_stop, stop_hit. destruct (Position.type position); cbn.
  - rewrite orb_false_r. apply Qleb_le.
  - apply Qgeb_ge.
Qed.

Lemma hit_target_iff (position : Position.t) (current_bar : Bar) :
  hit_target position current_bar = true <-> target_hit position current_bar.
Proof.
  unfold hit_target, target_hit. destruct (Position.type position); cbn.
  - rewrite orb_false_r. apply Qgeb_ge.
  - apply Qleb_le.
Qed.

Lemma not_true_iff_false' (b : bool) (P : Prop) :
  (b = true <-> P) -> ~ P -> b = false.
Proof. intros E N. destruct b; trivial. exfalso. apply N, E. reflexivity. Qed.

Lemma closed_with_close (self : t) (position : Position.t)
    (exit_price : Q) (exit_time : Z) (exit_reason : ExitReason) :
  closed_with self
    (_close_position (set_current_position self (Some position))
       exit_price exit_time exit_reason)
    (closing_trade position exit_price exit_time exit_reason).
Proof.
  rewrite (_close_position_open _ position) by reflexivity.
  repeat split.
Qed.

(** C1 (as the code behaves): [_check_position_exit] first overwrites the
    position's trailing stop with the level recomputed on the bar, and
    every test is made against that revised position.  On a bar where several exit
    conditions hold, the stop wins over the target and the target over the
    signal; the trade is recorded at the revised trailing stop, else at the
    take-profit, else at the bar's Close.  A long whose revised trailing
    stop is 95 and whose take-profit is 110, on a bar with Low 94 and
    High 112, is closed with reason [Stop] at 95. *)
Theorem exit_priority_stop_target_signal (self : t) (df : DataFrame)
    (idx : nat) (position : Position.t) :
  current_position self = Some position ->
  let position' := revised (exit_rules self) df idx position in
  let current_bar := iloc df idx in
  let signal :=
    ExitRules.check_exit_signals (exit_rules self) df idx
      (Position.type position) in
  let self' := fst (process_bar self df idx) in
  (stop_hit position' current_bar ->
   closed_with self self'
     (closing_trade position' (Position.trailing_stop position')
        (Time current_bar) Stop))
  /\ (~ stop_hit position' current_bar -> target_hit position' current_bar ->
      closed_with self self'
        (closing_trade position' (Position.take_profit position)
           (Time current_bar) Target))
  /\ (~ stop_hit position' current_bar -> ~ target_hit position' current_bar ->
      signal = true ->
      closed_with self self'
        (closing_trade position' (Close current_bar) (Time current_bar) Signal))
  /\ (~ stop_hit position' current_bar -> ~ target_hit position' current_bar ->
      signal = false ->
      self' = set_current_position self (Some position'))
  /\ (Position.type position = long ->
      Position.trailing_stop position' == 95 ->
      Position.take_profit position == 110 ->
      Low current_bar == 94 -> High current_bar == 112 ->
      exists trade,
        closed_with self self' trade
        /\ Trade.id trade = Position.trade_id position
        /\ Trade.exit_reason trade = Stop
        /\ Trade.exit_price trade == 95).
Proof.
  intros Hp position' current_bar signal self'.
  assert (E : self' =
    if hit_stop position' current_bar || hit_target position' current_bar
       || signal
    then _close_position (set_current_position self (Some position'))
           (if hit_stop position' current_bar
            then Position.trailing_stop position'
            else if hit_target position' current_bar
                 then Position.take_profit position'
                 else Close current_bar)
           (Time current_bar)
           (if hit_stop position' current_bar then Stop
            else if hit_target position' current_bar then Target else Signal)
    else set_current_position self (Some position')).
  { unfold self', process_bar. rewrite Hp. cbn [fst].
    apply (_check_position_exit_open self df idx position Hp). }
  assert (Stopped : stop_hit position' current_bar ->
    closed_with self self'
      (closing_trade position' (Position.trailing_stop position')
         (Time current_bar) Stop)).
  { intro Hs. apply hit_stop_iff in Hs. rewrite E, Hs. cbn [orb].
    apply closed_with_close. }
  split; [exact Stopped|]. split; [|split; [|split]].
  - intros Hs Ht. apply (not_true_iff_false' _ _ (hit_stop_iff _ _)) in Hs.
    apply hit_target_iff in Ht. rewrite E, Hs, Ht. cbn [orb].
    apply closed_with_close.
  - intros Hs Ht Hg. apply (not_true_iff_false' _ _ (hit_stop_iff _ _)) in Hs.
    apply (not_true_iff_false' _ _ (hit_target_iff _ _)) in Ht.
    rewrite E, Hs, Ht, Hg. cbn [orb]. apply closed_with_close.
  - intros Hs Ht Hg. apply (not_true_iff_false' _ _ (hit_stop_iff _ _)) in Hs.
    apply (not_true_iff_false' _ _ (hit_target_iff _ _)) in Ht.
    rewrite E, Hs, Ht, Hg. reflexivity.
  - intros Hlong Hts Htp Hlow Hhigh.
    eexists. split; [apply Stopped|].
    + unfold stop_hit. change (Position.type position') with (Position.type position).
      rewrite Hlong. fold current_bar in Hlow. rewrite Hts, Hlow.
      unfold Qle; simpl; lia.
    + cbn. repeat split. exact Hts.
Qed.

End ExitPriority.

(** ** The bar loop *)

Section BarLoop.

Context `{np : Numpy}.

Import BacktestEngine.

Lemma run_loop_cons (self : t) (df : DataFrame) (idx : nat) (rest : list nat) :
  run_loop self df (idx :: rest) = run_loop (bar_step self df idx) df rest.
Proof. reflexivity. Qed.

Lemma run_loop_app (df : DataFrame) (l1 l2 : list nat) :
  forall self : t,
    run_loop self df (l1 ++ l2) = run_loop (run_loop self df l1) df l2.
Proof.
  induction l1 as [|idx l1 IH]; intro self; [reflexivity|].
  rewrite <- app_comm_cons, !run_loop_cons. apply IH.
Qed.

Lemma state_after_0 (self : t) (df : DataFrame) :
  state_after self df 0 = reset self.
Proof. reflexivity. Qed.

Lemma state_after_S (self : t) (df : DataFrame) (k : nat) :
  state_after self df (S k) = bar_step (state_after self df k) df k.
Proof.
  unfold state_after. rewrite seq_S, run_loop_app. reflexivity.
Qed.

Lemma run_state_after (self : t) (df : DataFrame) :
  fst (run self df) = state_after self df (length df).
Proof. reflexivity. Qed.

(** Induction over the bars of a run. *)
Lemma state_after_ind (P : t -> Prop) (self : t) (df : DataFrame) :
  P (reset self) ->
  (forall s idx, P s -> P (bar_step s df idx)) ->
  forall k, P (state_after self df k).
Proof.
  intros H0 Hstep k. induction k as [|k IH].
  - exact H0.
  - rewrite state_after_S. apply Hstep, IH.
Qed.

Lemma process_bar_by_action (self : t) (df : DataFrame) (idx : nat) :
  fst (process_bar self df idx)
  = match bar_action self idx with
    | CheckExit => _check_position_exit self df idx
    | CheckEntry => _check_new_entry self df idx
    | NoAction => self
    end.
Proof.
  unfold process_bar, bar_action.
  destruct (current_position self); [reflexivity|].
  destruct (20 <=? idx)%nat; reflexivity.
Qed.

Lemma bar_action_entry (self : t) (idx : nat) :
  bar_action self idx = CheckEntry
  <-> current_position self = None /\ (20 <= idx)%nat.
Proof.
  unfold bar_action. destruct (current_position self).
  - split; [discriminate | intros [E _]; discriminate].
  - destruct (Nat.leb_spec 20 idx); split; try discriminate; auto.
    intros [_ L]. lia.
Qed.

Lemma process_bar_outcome (self : t) (df : DataFrame) (idx : nat) :
  bar_outcome self (fst (process_bar self df idx)) idx.
Proof.
  destruct (current_position self) as [p|] eqn:Hp.
  - destruct (process_bar_open self df idx p Hp) as [E|(price & reason & E)];
      rewrite E.
    + apply bar_holds; try reflexivity.
      * cbn. congruence.
      * cbn. intros q Hq. eexists. split; [reflexivity|].
        assert (q = p) by congruence. subst q. split; reflexivity.
    + rewrite (_close_position_open _ (revised (exit_rules self) df idx p))
        by reflexivity.
      eapply (bar_closes _ _ _ p); try reflexivity; cbn; assumption.
  - destruct (process_bar_flat self df idx Hp)
      as [E|(Hidx & ty & sl & tp & E)]; rewrite E.
    + apply bar_holds; try reflexivity; [trivial|].
      intros p Hq. congruence.
    + eapply bar_opens; try reflexivity; try assumption;
        cbn; f_equal; lia.
Qed.

Lemma bar_step_fields (self : t) (df : DataFrame) (idx : nat) :
  let self' := fst (process_bar self df idx) in
  trades (bar_step self df idx) = trades self'
  /\ equity (bar_step self df idx) = equity self'
  /\ trade_count (bar_step self df idx) = trade_count self'
  /\ current_position (bar_step self df idx) = current_position self'
  /\ equity_curve (bar_step self df idx) = equity_curve self' ++ [equity self'].
Proof. repeat split. Qed.

Lemma process_bar_settings (self : t) (df : DataFrame) (idx : nat) :
  same_settings (fst (process_bar self df idx)) self.
Proof.
  destruct (current_position self) as [p|] eqn:Hp.
  - destruct (process_bar_open self df idx p Hp) as [E|(price & reason & E)];
      rewrite E.
    + repeat split.
    + rewrite (_close_position_open _ (revised (exit_rules self) df idx p))
        by reflexivity.
      repeat split.
  - destruct (process_bar_flat self df idx Hp)
      as [E|(Hidx & ty & sl & tp & E)]; rewrite E; repeat split.
Qed.

Lemma state_after_settings (self : t) (df : DataFrame) (k : nat) :
  same_settings (state_after self df k) self.
Proof.
  apply state_after_ind.
  - repeat split.
  - intros s idx (H1 & H2 & H3 & H4).
    destruct (process_bar_settings s df idx) as (G1 & G2 & G3 & G4).
    repeat split;
      [ exact (eq_trans G1 H1) | exact (eq_trans G2 H2)
      | exact (eq_trans G3 H3) | exact (eq_trans G4 H4) ].
Qed.

End BarLoop.

(** ** The engine depends on NumPy only through the signals *)

Section NumpyAgreement.

Variables np1 np2 : Numpy.

Import BacktestEngine.

Lemma process_bar_agree (self : t) (df : DataFrame) (idx : nat) :
  signals_agree np1 np2 (entry_rules self) (exit_rules self) df idx ->
  process_bar (np := np1) self df idx = process_bar (np := np2) self df idx.
Proof.
  intros [Hentry Hexit].
  unfold process_bar, _check_position_exit, _check_new_entry.
  rewrite Hentry.
  destruct (current_position self) as [p|]; [|reflexivity].
  cbv zeta. cbn [exit_rules set_current_position].
  rewrite Hexit. reflexivity.
Qed.

Lemma state_after_agree (self : t) (df : DataFrame) (k : nat) :
  (forall idx, (idx < k)%nat ->
     signals_agree np1 np2 (entry_rules self) (exit_rules self) df idx) ->
  state_after (np := np1) self df k = state_after (np := np2) self df k.
Proof.
  induction k as [|k IH]; intro Hagree; [reflexivity|].
  rewrite !state_after_S, IH by (intros idx Hidx; apply Hagree; lia).
  unfold bar_step. rewrite process_bar_agree; [reflexivity|].
  destruct (state_after_settings (np := np2) self df k) as (E1 & E2 & _).
  rewrite E1, E2. apply Hagree. lia.
Qed.

End NumpyAgreement.

(** ** Accounting *)

Section Accounting.

Context `{np : Numpy}.

Import BacktestEngine.

Lemma Qsum_snoc (xs : list Q) (x : Q) : Qsum (xs ++ [x]) = Qsum xs + x.
Proof. unfold Qsum. rewrite fold_left_app. reflexivity. Qed.

Lemma books_balance_reset (self : t) : books_balance (reset self).
Proof. split; [cbn; lra | constructor]. Qed.

Lemma books_balance_step (self : t) (df : DataFrame) (idx : nat) :
  books_balance self -> books_balance (bar_step self df idx).
Proof.
  intros [Heq Hall].
  destruct (process_bar_settings self df idx) as (_ & _ & Hcap & _).
  destruct (bar_step_fields self df idx) as (Ft & Fe & _).
  unfold books_balance.
  change (initial_capital (bar_step self df idx))
    with (initial_capital (fst (process_bar self df idx))).
  rewrite Ft, Fe, Hcap.
  destruct (process_bar_outcome self df idx)
    as [Ht He _ _ _ | p _ _ _ Ht He _ _ _ | p trade _ _ Ht He _ _ Hpnl];
    rewrite Ht, He.
  - split; assumption.
  - split; assumption.
  - split.
    + rewrite map_app. cbn [map]. rewrite Qsum_snoc. lra.
    + apply Forall_app. split; [assumption|]. constructor; [|constructor].
      exact Hpnl.
Qed.

Lemma books_balance_after (self : t) (df : DataFrame) (k : nat) :
  books_balance (state_after self df k).
Proof.
  apply state_after_ind.
  - apply books_balance_reset.
  - intros s idx. apply books_balance_step.
Qed.

Lemma _generate_results_returned (self : t) (r : Results) :
  _generate_results self = Returned r ->
  r_initial_capital r = initial_capital self
  /\ r_final_equity r = equity self
  /\ r_trades r = trades self
  /\ r_equity_curve r = equity_curve self
  /\ trades self <> [].
Proof.
  unfold _generate_results, int_div.
  destruct (trades self) as [|trade rest]; cbn [length]; [discriminate|].
  intro E. injection E as <-. cbn. repeat split. discriminate.
Qed.

(** C4: after a run over any bars, the final equity minus the initial
    capital is the sum of the profits in the ledger; each recorded profit is
    (exit - entry) x size for a long and (entry - exit) x size for a short;
    a bar changes the equity only by closing a trade, adding that trade's
    profit; the summary, when [run] returns one, reports the same figures. *)
Theorem final_equity_is_capital_plus_ledger (self : t) (df : DataFrame) :
  let final := fst (run self df) in
  equity final - initial_capital self
  == Qsum (map Trade.pnl (trades final))
  /\ Forall (fun trade => Trade.pnl trade = pnl_by_side trade) (trades final)
  /\ (forall (s : t) (idx : nat),
        let s' := fst (process_bar s df idx) in
        (trades s' = trades s /\ equity s' = equity s)
        \/ (exists trade,
              trades s' = trades s ++ [trade]
              /\ equity s' = equity s + Trade.pnl trade
              /\ current_position s <> None
              /\ current_position s' = None))
  /\ match snd (run self df) with
     | Returned r =>
         r_final_equity r - r_initial_capital r
         == Qsum (map Trade.pnl (r_trades r))
         /\ r_initial_capital r = initial_capital self
     | Raised _ => trades final = []
     end.
Proof.
  intro final.
  assert (Hb : books_balance final)
    by (unfold final; rewrite run_state_after; apply books_balance_after).
  assert (Hcap : initial_capital final = initial_capital self).
  { unfold final. rewrite run_state_after.
    apply (state_after_settings self df (length df)). }
  destruct Hb as [Heq Hall]. rewrite Hcap in Heq.
  split; [exact Heq|]. split; [exact Hall|]. split.
  - intros s idx s'.
    destruct (process_bar_outcome s df idx)
      as [Ht He _ _ _ | p _ _ _ Ht He _ _ _ | p trade Hp Hp' Ht He _ _ _].
    + left. split; assumption.
    + left. split; assumption.
    + right. exists trade. repeat split; try assumption. congruence.
  - change (snd (run self df)) with (_generate_results final).
    destruct (_generate_results final) as [r|e] eqn:Hr.
    + destruct (_generate_results_returned final r Hr) as (R1 & R2 & R3 & _).
      rewrite R1, R2, R3, Hcap. split; [exact Heq | reflexivity].
    + unfold _generate_results, int_div in Hr.
      destruct (trades final); [reflexivity | discriminate].
Qed.

End Accounting.

(** ** At most one position; the warm-up of twenty bars *)

Section SinglePosition.

Context `{np : Numpy}.

Import BacktestEngine.

Lemma one_position_step (self : t) (df : DataFrame) (idx : nat) :
  one_position self -> one_position (bar_step self df idx).
Proof.
  unfold one_position.
  destruct (bar_step_fields self df idx) as (Ft & _ & Fc & Fp & _).
  rewrite Ft, Fc, Fp. intro Inv.
  destruct (process_bar_outcome self df idx)
    as [Ht _ Hc Hnone Hsome | p _ Hp Hp' Ht _ Hc Hid _
        | p trade Hp Hp' Ht _ Hc _ _].
  - rewrite Ht, Hc. destruct (current_position self) as [q|].
    + destruct (Hsome q eq_refl) as (q' & -> & Hid & _).
      rewrite Hid. exact Inv.
    + rewrite (Hnone eq_refl). exact Inv.
  - rewrite Hp', Ht, Hc, Hid. rewrite Hp in Inv. split; congruence.
  - rewrite Hp', Ht, Hc. rewrite Hp in Inv. destruct Inv as [Inv _].
    rewrite length_app. cbn. lia.
Qed.

Lemma one_position_after (self : t) (df : DataFrame) (k : nat) :
  one_position (state_after self df k).
Proof.
  apply state_after_ind.
  - reflexivity.
  - intros s idx. apply one_position_step.
Qed.

(** Before bar 20 nothing happens. *)
Lemma state_after_warm_up (self : t) (df : DataFrame) (k : nat) :
  (k <= 20)%nat ->
  current_position (state_after self df k) = None
  /\ trades (state_after self df k) = []
  /\ trade_count (state_after self df k) = 0%nat
  /\ equity (state_after self df k) = initial_capital self.
Proof.
  induction k as [|k IH]; intro Hk.
  - repeat split.
  - destruct IH as (Hp & Ht & Hc & He); [lia|].
    rewrite state_after_S.
    destruct (bar_step_fields (state_after self df k) df k)
      as (Ft & Fe & Fc & Fp & _).
    rewrite Ft, Fe, Fc, Fp.
    assert (E : fst (process_bar (state_after self df k) df k)
                = state_after self df k).
    { rewrite process_bar_by_action. unfold bar_action. rewrite Hp.
      destruct (Nat.leb_spec 20 k); [lia | reflexivity]. }
    rewrite E. repeat split; assumption.
Qed.

(** C5: at every bar of a run at most one position is open (the positions
    opened exceed the trades closed by one exactly when a position is open,
    and by none otherwise); [process_bar] evaluates an entry exactly when no
    position is open and the index is at least 20, and only such a bar can
    open a position; on a series shorter than 20 bars every bar takes no
    action, no position is opened and the ledger stays empty. *)
Theorem single_position_and_warm_up (self : t) (df : DataFrame) (k : nat) :
  (k <= length df)%nat ->
  let s := state_after self df k in
  (open_positions s <= 1)%nat
  /\ (open_positions s = 1%nat <-> current_position s <> None)
  /\ (forall (s0 : t) (idx : nat),
        (bar_action s0 idx = CheckEntry
         <-> current_position s0 = None /\ (20 <= idx)%nat)
        /\ (fst (process_bar s0 df idx)
            = match bar_action s0 idx with
              | CheckExit => _check_position_exit s0 df idx
              | CheckEntry => _check_new_entry s0 df idx
              | NoAction => s0
              end)
        /\ (trade_count (fst (process_bar s0 df idx)) <> trade_count s0 ->
            bar_action s0 idx = CheckEntry))
  /\ ((length df < 20)%nat ->
      bar_action s k = NoAction
      /\ current_position s = None
      /\ trade_count s = 0%nat
      /\ trades s = []).
Proof.
  intros Hk s.
  assert (Inv : one_position s) by apply one_position_after.
  unfold one_position in Inv. unfold open_positions.
  split; [|split; [|split]].
  - destruct (current_position s); [destruct Inv|]; lia.
  - destruct (current_position s) as [p|].
    + destruct Inv as [Inv _]. split; [discriminate | lia].
    + split; [lia | congruence].
  - intros s0 idx. split; [apply bar_action_entry|].
    split; [apply process_bar_by_action|].
    intro Hc. apply bar_action_entry.
    destruct (process_bar_outcome s0 df idx)
      as [_ _ Hc' _ _ | p Hidx Hp _ _ _ _ _ _ | p trade _ _ _ _ Hc' _ _];
      try contradiction.
    split; assumption.
  - intros Hlen.
    destruct (state_after_warm_up self df k) as (Hp & Ht & Hc & _); [lia|].
    fold s in Hp, Ht, Hc. repeat split; try assumption.
    unfold bar_action. rewrite Hp.
    destruct (Nat.leb_spec 20 k); [lia | reflexivity].
Qed.

End SinglePosition.

(** ** Entry bar, determinism, and the empty ledger *)

Section RunProperties.

Context `{np : Numpy}.

Import BacktestEngine.

(** C10: a bar that opens a position runs no exit logic: it records no
    trade and leaves the equity alone, and the position it stores has its
    trailing stop equal to its initial stop loss; the next bar is the first
    to evaluate the exits of that position.  A bar that records a trade
    closes a position that was already open before the bar, and opens none. *)
Theorem entry_bar_runs_no_exit (self : t) (df : DataFrame) (idx : nat)
    (p : Position.t) :
  current_position self = None ->
  current_position (fst (process_bar self df idx)) = Some p ->
  let self' := bar_step self df idx in
  fst (process_bar self df idx) = _check_new_entry self df idx
  /\ trades self' = trades self
  /\ equity self' = equity self
  /\ current_position self' = Some p
  /\ Position.trailing_stop p = Position.stop_loss p
  /\ Position.trade_id p = S (trade_count self)
  /\ fst (process_bar self' df (S idx)) = _check_position_exit self' df (S idx)
  /\ (forall (s : t) (i : nat),
        trades (fst (process_bar s df i)) <> trades s ->
        current_position s <> None
        /\ current_position (fst (process_bar s df i)) = None).
Proof.
  intros Hflat Hopen self'.
  destruct (bar_step_fields self df idx) as (Ft & Fe & _ & Fp & _).
  fold self' in Ft, Fe, Fp.
  assert (Hact : bar_action self idx = CheckEntry).
  { destruct (process_bar_outcome self df idx)
      as [_ _ _ Hnone _ | q Hidx _ _ _ _ _ _ _ | q trade Hq _ _ _ _ _ _].
    - rewrite (Hnone Hflat) in Hopen. discriminate.
    - apply bar_action_entry. split; assumption.
    - congruence. }
  split; [rewrite process_bar_by_action, Hact; reflexivity|].
  destruct (process_bar_outcome self df idx)
    as [_ _ _ Hnone _ | q _ _ Hq Ht He _ Hid Hts | q trade Hq _ _ _ _ _ _].
  - rewrite (Hnone Hflat) in Hopen. discriminate.
  - assert (q = p) by congruence. subst q.
    rewrite Ft, Fe, Fp. repeat split; try assumption.
    + rewrite process_bar_by_action. unfold bar_action.
      rewrite Fp, Hopen. reflexivity.
    + destruct (process_bar_outcome s df i)
        as [Ht' _ _ _ _ | q _ _ _ Ht' _ _ _ _ | q trade Hq' _ _ _ _ _ _];
        congruence.
    + destruct (process_bar_outcome s df i)
        as [Ht' _ _ _ _ | q _ _ _ Ht' _ _ _ _ | q trade _ Hq' _ _ _ _ _];
        congruence.
  - congruence.
Qed.

Lemma reset_same_settings (a b : t) :
  same_settings a b -> reset a = reset b.
Proof.
  intros (H1 & H2 & H3 & H4). unfold reset. rewrite H1, H2, H3, H4.
  reflexivity.
Qed.

Lemma run_same_settings (a b : t) (df : DataFrame) :
  same_settings a b -> run a df = run b df.
Proof.
  intro H. unfold run. rewrite (reset_same_settings a b H). reflexivity.
Qed.

(** C9: [run] resets the engine first, so its result (the engine it leaves
    and the summary or error it produces, ledger and equity curve included)
    depends only on the bars and on the settings of the engine, not on any
    state left by earlier runs; running again on the same bars gives the
    same ledger and the same equity curve. *)
Theorem run_is_deterministic (a b : t) (df : DataFrame) :
  entry_rules a = entry_rules b ->
  exit_rules a = exit_rules b ->
  initial_capital a = initial_capital b ->
  position_size a = position_size b ->
  run a df = run b df
  /\ run (fst (run a df)) df = run a df
  /\ trades (fst (run (fst (run a df)) df)) = trades (fst (run a df))
  /\ equity_curve (fst (run (fst (run a df)) df))
     = equity_curve (fst (run a df)).
Proof.
  intros H1 H2 H3 H4.
  assert (Again : run (fst (run a df)) df = run a df).
  { apply run_same_settings. rewrite run_state_after.
    apply state_after_settings. }
  split; [apply run_same_settings; repeat split; assumption|].
  split; [exact Again|]. rewrite Again. split; reflexivity.
Qed.

(** Each bar adds one sample to the equity curve. *)
Lemma equity_curve_length (self : t) (df : DataFrame) (k : nat) :
  length (equity_curve (state_after self df k)) = k.
Proof.
  induction k as [|k IH]; [reflexivity|].
  rewrite state_after_S.
  destruct (bar_step_fields (state_after self df k) df k) as (_ & _ & _ & _ & Fq).
  rewrite Fq, length_app.
  assert (E : equity_curve (fst (process_bar (state_after self df k) df k))
              = equity_curve (state_after self df k)).
  { destruct (current_position (state_after self df k)) as [p|] eqn:Hp.
    - destruct (process_bar_open _ df k p Hp) as [E|(price & reason & E)];
        rewrite E; [reflexivity|].
      rewrite (_close_position_open _ (revised _ df k p)) by reflexivity.
      reflexivity.
    - destruct (process_bar_flat _ df k Hp) as [E|(_ & ty & sl & tp & E)];
        rewrite E; reflexivity. }
  rewrite E, IH. cbn. lia.
Qed.

(** C3 (as the code behaves): when the bar loop ends with an empty ledger,
    [_generate_results] divides by [len(self.trades)] and [run] raises
    [ZeroDivisionError] instead of returning a summary; this is the case for
    every series shorter than 20 bars. *)
Theorem run_with_empty_ledger_raises (self : t) (df : DataFrame) :
  (trades (fst (run self df)) = [] ->
   snd (run self df) = Raised ZeroDivisionError)
  /\ ((length df < 20)%nat ->
      trades (fst (run self df)) = []
      /\ snd (run self df) = Raised ZeroDivisionError).
Proof.
  assert (Empty : trades (fst (run self df)) = [] ->
                  snd (run self df) = Raised ZeroDivisionError).
  { change (snd (run self df)) with (_generate_results (fst (run self df))).
    unfold _generate_results. intros ->. reflexivity. }
  split; [exact Empty|]. intro Hlen.
  assert (Ht : trades (fst (run self df)) = []).
  { rewrite run_state_after.
    apply (state_after_warm_up self df (length df)). lia. }
  split; [exact Ht | exact (Empty Ht)].
Qed.

End RunProperties.

(** ** Position sizing *)

Section PositionSizing.

Context `{np : Numpy}.

Import BacktestEngine.


Lemma calculate_momentum_score_bounds (df : DataFrame) (idx : nat) :
  -1 <= MomentumPatterns.calculate_momentum_score df idx <= 1.
Proof.
  unfold MomentumPatterns.calculate_momentum_score.
  destruct (idx <? 20)%nat; [split; lra|].
  split; [apply Q.le_max_r|].
  apply Q.max_lub; [apply Q.le_min_r | lra].
Qed.



End PositionSizing.

(** ** The sample run, bar by bar *)

Lemma sample_run_positions :
  BacktestEngine.current_position (sample_state 50) = None
  /\ option_map Qred_position (BacktestEngine.current_position (sample_state 51))
     = Some (Position.mk long 160 50 (269 # 1885) 156 168 156 1)
  /\ option_map Qred_position (BacktestEngine.current_position (sample_state 52))
     = Some (Position.mk long 160 50 (269 # 1885) 156 168 161 1)
  /\ option_map Qred_position (BacktestEngine.current_position (sample_state 53))
     = Some (Position.mk long 160 50 (269 # 1885) 156 168 159 1)
  /\ BacktestEngine.current_position (sample_state 54) = None
  /\ map (fun trade =>
            (Trade.id trade, Trade.exit_reason trade,
             Qred (Trade.exit_price trade), Qred (Trade.pnl trade)))
         (BacktestEngine.trades (sample_state 54))
     = [(1%nat, Stop, 792 # 5, - (2152 # 9425))].
Proof. vm_compute. repeat split. Qed.

Lemma sample_run_returns :
  exists r,
    snd (BacktestEngine.run (np := sample_numpy) sample_engine sample_df)
    = Returned r
    /\ BacktestEngine.r_trade_count r = 1%nat
    /\ BacktestEngine.r_win_rate r == 0
    /\ BacktestEngine.r_final_equity r == 100000 - (2152 # 9425)
    /\ length (BacktestEngine.r_equity_curve r) = 54%nat.
Proof.
  destruct (snd (BacktestEngine.run (np := sample_numpy) sample_engine sample_df))
    as [r|e] eqn:E; vm_compute in E; [|discriminate].
  exists r. split; [reflexivity|]. injection E as <-.
  repeat split.
Qed.

(** On bar 50 of the sample frame the rules signal a long entry whenever
    the trend strength exceeds 0.3. *)
Lemma sample_entry_signal (np : Numpy) :
  0.3 < MomentumIndicators.get_trend_strength (np := np) sample_df 50 50 ->
  EntryRules.check_entry_signals (np := np) (EntryRules.mk default_rules)
    sample_df 50
  = (true, false).
Proof.
  intro H. apply Qgtb_gt in H.
  unfold EntryRules.check_entry_signals.
  change (50 <? 20)%nat with false. cbv iota.
  rewrite H. vm_compute. reflexivity.
Qed.

(** The sample run does not depend on the stand-ins chosen for NumPy: every
    implementation whose trend strength on bar 50 exceeds 0.3 (the fitted
    slope there is about 1.02 a bar, so [np.tanh] returns 1.0) produces the
    same states. *)
Lemma sample_run_any_numpy (np : Numpy) (k : nat) :
  0.3 < MomentumIndicators.get_trend_strength (np := np) sample_df 50 50 ->
  (k <= 54)%nat ->
  state_after (np := np) sample_engine sample_df k = sample_state k.
Proof.
  intros H Hk. apply state_after_agree. intros idx Hidx.
  assert (Hidx' : (idx < 54)%nat) by lia. clear Hidx Hk k.
  split.
  - do 50 (destruct idx as [|idx]; [vm_compute; reflexivity|]).
    destruct idx as [|idx].
    { change (BacktestEngine.entry_rules sample_engine)
        with (EntryRules.mk default_rules).
      rewrite (sample_entry_signal np H). vm_compute. reflexivity. }
    do 3 (destruct idx as [|idx]; [vm_compute; reflexivity|]). lia.
  - intro position_type.
    do 54 (destruct idx as [|idx];
           [destruct position_type; vm_compute; reflexivity|]).
    lia.
Qed.

(** ** Take-profit and trailing stop of an open position *)

Section TrailingStop.

Context `{np : Numpy}.

Import BacktestEngine.

Lemma calculate_trailing_stop_bounds (xr : ExitRules.t) (df : DataFrame)
    (idx : nat) (entry_price : Q) :
  (1 <= idx)%nat ->
  entry_price * 0.99
  <= ExitRules.calculate_trailing_stop xr df idx long entry_price
  /\ ExitRules.calculate_trailing_stop xr df idx short entry_price
     <= entry_price * 1.01.
Proof.
  intro Hidx. unfold ExitRules.calculate_trailing_stop.
  destruct (Nat.ltb_spec idx 1); [lia|].
  rewrite get_dynamic_stops_some by exact Hidx.
  split; [apply Q.le_max_r | apply Q.le_min_r].
Qed.


End TrailingStop.

(** C1 (as stated) fails: the trailing stop a position stores when the bar
    begins is not the level the bar is tested against.  A long entered at
    100 that stores the trailing stop 95, with take-profit 110, on a bar
    with Low 94 and High 112 is stopped at the recomputed level 99, not at
    95; a long entered at 90 that stores the trailing stop 95 is, on such a
    bar, not stopped at all (the recomputed level is 93) and closes at the
    target 110. *)
Lemma stored_trailing_stop_is_overwritten :
  (exists position,
     BacktestEngine.current_position stored_stop_engine = Some position
     /\ Position.type position = long
     /\ Position.trailing_stop position == 95
     /\ Position.take_profit position == 110
     /\ Low (iloc stored_stop_df 1) == 94
     /\ High (iloc stored_stop_df 1) == 112
     /\ closed_with stored_stop_engine
          (fst (BacktestEngine.process_bar (np := sample_numpy)
                  stored_stop_engine stored_stop_df 1))
          (first_trade
             (fst (BacktestEngine.process_bar (np := sample_numpy)
                     stored_stop_engine stored_stop_df 1)))
     /\ Trade.exit_reason
          (first_trade
             (fst (BacktestEngine.process_bar (np := sample_numpy)
                     stored_stop_engine stored_stop_df 1))) = Stop
     /\ Trade.exit_price
          (first_trade
             (fst (BacktestEngine.process_bar (np := sample_numpy)
                     stored_stop_engine stored_stop_df 1))) == 99)
  /\ (exists position,
        BacktestEngine.current_position raised_stop_engine = Some position
        /\ Position.type position = long
        /\ Position.trailing_stop position == 95
        /\ Position.take_profit position == 110
        /\ Low (iloc raised_stop_df 1) == 94
        /\ High (iloc raised_stop_df 1) == 112
        /\ closed_with raised_stop_engine
             (fst (BacktestEngine.process_bar (np := sample_numpy)
                     raised_stop_engine raised_stop_df 1))
             (first_trade
                (fst (BacktestEngine.process_bar (np := sample_numpy)
                        raised_stop_engine raised_stop_df 1)))
        /\ Trade.exit_reason
             (first_trade
                (fst (BacktestEngine.process_bar (np := sample_numpy)
                        raised_stop_engine raised_stop_df 1))) = Target
        /\ Trade.exit_price
             (first_trade
                (fst (BacktestEngine.process_bar (np := sample_numpy)
                        raised_stop_engine raised_stop_df 1))) == 110).
Proof.
  split.
  - exists (Position.mk long 100 0 1 95 110 95 1).
    repeat split; vm_compute; reflexivity.
  - exists (Position.mk long 90 0 1 80 110 95 1).
    repeat split; vm_compute; reflexivity.
Qed.



(** ** The theorems at concrete inputs *)

Lemma exit_priority_stop_target_signal_witness :
  exists trade,
    closed_with stop_priority_engine
      (fst (BacktestEngine.process_bar (np := sample_numpy)
              stop_priority_engine stop_priority_df 1))
      trade
    /\ Trade.id trade = 1%nat
    /\ Trade.exit_reason trade = Stop
    /\ Trade.exit_price trade == 95.
Proof.
  apply (proj2 (proj2 (proj2 (proj2
           (@exit_priority_stop_target_signal sample_numpy
              stop_priority_engine stop_priority_df 1
              (Position.mk long 95 0 1 87.5 110 87.5 1) eq_refl))))).
  - reflexivity.
  - vm_compute. reflexivity.
  - reflexivity.
  - reflexivity.
  - reflexivity.
Defined.


Lemma run_with_empty_ledger_raises_witness :
  snd (BacktestEngine.run (np := sample_numpy) sample_engine
         (firstn 19 sample_df))
  = Raised ZeroDivisionError.
Proof.
  apply (proj2 (@run_with_empty_ledger_raises sample_numpy sample_engine
                  (firstn 19 sample_df))).
  vm_compute. reflexivity.
Defined.

Lemma single_position_and_warm_up_witness :
  BacktestEngine.current_position
    (state_after (np := sample_numpy) sample_engine (firstn 19 sample_df) 19)
  = None
  /\ BacktestEngine.trades
       (state_after (np := sample_numpy) sample_engine (firstn 19 sample_df) 19)
     = [].
Proof.
  assert (Hk : (19 <= length (firstn 19 sample_df))%nat)
    by (vm_compute; reflexivity).
  destruct (@single_position_and_warm_up sample_numpy sample_engine
              (firstn 19 sample_df) 19 Hk) as (_ & _ & _ & Hshort).
  destruct Hshort as (_ & Hp & _ & Ht).
  - vm_compute. reflexivity.
  - split; [exact Hp | exact Ht].
Defined.

Lemma dynamic_stops_and_trailing_level_witness :
  exists stop_distance take_profit_distance,
    VolatilityIndicators.get_dynamic_stops default_rules high_regime_df 1 2
    = Some (stop_distance, take_profit_distance)
    /\ stop_distance == 3 /\ take_profit_distance == 6.
Proof.
  destruct (proj1 (dynamic_stops_and_trailing_level
                     (ExitRules.mk default_rules) high_regime_df 1 2 100
                     (le_n 1)))
    as (sd & tp & E & _ & _ & Hscenario).
  exists sd, tp. split; [exact E|].
  apply Hscenario.
  - reflexivity.
  - vm_compute. discriminate.
  - reflexivity.
  - reflexivity.
Defined.


Lemma run_is_deterministic_witness :
  BacktestEngine.run (np := sample_numpy) sample_engine sample_df
  = BacktestEngine.run (np := sample_numpy) stop_priority_engine sample_df.
Proof.
  apply (@run_is_deterministic sample_numpy sample_engine
           stop_priority_engine sample_df); reflexivity.
Defined.

Lemma entry_bar_runs_no_exit_witness :
  BacktestEngine.trades
    (bar_step (np := sample_numpy) (sample_state 50) sample_df 50)
  = BacktestEngine.trades (sample_state 50)
  /\ Position.trailing_stop (sample_position_at 51)
     = Position.stop_loss (sample_position_at 51).
Proof.
  assert (Hflat : BacktestEngine.current_position (sample_state 50) = None)
    by (vm_compute; reflexivity).
  assert (Hopen : BacktestEngine.current_position
                    (fst (BacktestEngine.process_bar (np := sample_numpy)
                            (sample_state 50) sample_df 50))
                  = Some (sample_position_at 51))
    by (vm_compute; reflexivity).
  destruct (@entry_bar_runs_no_exit sample_numpy (sample_state 50) sample_df
              50 (sample_position_at 51) Hflat Hopen)
    as (_ & Ht & _ & _ & Hts & _).
  split; [exact Ht | exact Hts].
Defined.


(** * Further properties of the pattern detectors and indicators *)

Lemma Qabs_pos_of_lt (x y : Q) : x < y \/ y < x -> 0 < Qabs (y - x).
Proof. intros [L|L]; apply Qabs_case; intros; lra. Qed.

Lemma Qabs_zero_of_eq (x y : Q) : x == y -> Qabs (y - x) == 0.
Proof.
  intro E. setoid_replace (y - x) with 0 by (rewrite E; ring). reflexivity.
Qed.

(** X1: no candle is both a hammer and a shooting star; and a candle with
    no body (Open equal to Close) is neither, however long its wick, as soon
    as the wick on the other side is not negative: the "very small wick"
    test is strict and relative to the body. *)
Theorem hammer_and_shooting_star (df : DataFrame) (idx : nat) :
  CandlestickPatterns.is_hammer df idx
  && CandlestickPatterns.is_shooting_star df idx = false
  /\ (Open (iloc df idx) == Close (iloc df idx) ->
      Qmax (Open (iloc df idx)) (Close (iloc df idx)) <= High (iloc df idx) ->
      CandlestickPatterns.is_hammer df idx = false)
  /\ (Open (iloc df idx) == Close (iloc df idx) ->
      Low (iloc df idx) <= Qmin (Open (iloc df idx)) (Close (iloc df idx)) ->
      CandlestickPatterns.is_shooting_star df idx = false).
Proof.
  unfold CandlestickPatterns.is_hammer, CandlestickPatterns.is_shooting_star.
  split; [|split].
  - apply not_true_is_false. intro B. qreflect.
    pose proof (Qabs_nonneg (Close (iloc df idx) - Open (iloc df idx))). lra.
  - intros E Hh. apply not_true_is_false. intro B. qreflect.
    pose proof (Qabs_zero_of_eq _ _ E). lra.
  - intros E Hl. apply not_true_is_false. intro B. qreflect.
    pose proof (Qabs_zero_of_eq _ _ E). lra.
Qed.

Lemma hammer_and_shooting_star_witness :
  CandlestickPatterns.is_hammer [candle 10 10 5 10] 0 = false.
Proof.
  apply (proj1 (proj2 (hammer_and_shooting_star [candle 10 10 5 10] 0)));
    [reflexivity | vm_compute; discriminate].
Defined.

(** X2: a doji (for any threshold from 0 up to, but not including, 0.9) is
    never a marubozu of either colour, and a marubozu is never bullish and
    bearish at once. *)
Theorem doji_excludes_marubozu (df : DataFrame) (idx : nat)
    (doji_threshold threshold : Q) :
  0 <= doji_threshold -> doji_threshold < 0.9 ->
  (CandlestickPatterns.is_doji df idx doji_threshold = true ->
   CandlestickPatterns.is_marubozu df idx threshold = (false, false))
  /\ fst (CandlestickPatterns.is_marubozu df idx threshold)
     && snd (CandlestickPatterns.is_marubozu df idx threshold) = false.
Proof.
  intros Ht0 Ht. split.
  - intro D. unfold CandlestickPatterns.is_doji in D.
    unfold CandlestickPatterns.is_marubozu. qreflect.
    destruct (_ <? _) eqn:B; [reflexivity|]. qreflect.
    set (body := Qabs (Close (iloc df idx) - Open (iloc df idx))) in *.
    set (range := High (iloc df idx) - Low (iloc df idx)) in *.
    assert (Hz : body <= 0).
    { destruct (Qlt_le_dec 0 range).
      - assert (range * doji_threshold < range * 0.9) by nra. lra.
      - assert (range * doji_threshold <= 0) by nra. lra. }
    assert (B1 : (Close (iloc df idx) >? Open (iloc df idx)) = false).
    { apply Qgtb_le. apply Qnot_lt_le. intro L.
      pose proof (Qabs_pos_of_lt _ _ (or_introl L)) as P.
      fold body in P. lra. }
    assert (B2 : (Close (iloc df idx) <? Open (iloc df idx)) = false).
    { apply Qltb_ge. apply Qnot_lt_le. intro L.
      pose proof (Qabs_pos_of_lt _ _ (or_intror L)) as P.
      fold body in P. lra. }
    rewrite B1, B2. reflexivity.
  - unfold CandlestickPatterns.is_marubozu.
    destruct (_ <? _); [reflexivity|]. cbn [fst snd].
    apply not_true_is_false. intro B. qreflect. lra.
Qed.

Lemma doji_excludes_marubozu_witness :
  CandlestickPatterns.is_marubozu sample_df 10 0.1 = (false, false).
Proof.
  apply (proj1 (doji_excludes_marubozu sample_df 10 0.1 0.1
                  ltac:(vm_compute; discriminate) ltac:(reflexivity))).
  vm_compute. reflexivity.
Defined.

(** ** Windows and extrema *)

Lemma islice_nth (df : DataFrame) (start stop j : nat) :
  (start <= j < stop)%nat -> (j < length df)%nat ->
  In (iloc df j) (islice df start stop).
Proof.
  intros [Ha Hb] Hj. unfold iloc, islice.
  replace (nth j df nan_bar)
    with (nth (j - start) (firstn (stop - start) (skipn start df)) nan_bar).
  - apply nth_In. rewrite length_firstn, length_skipn. lia.
  - rewrite nth_firstn, nth_skipn.
    destruct (Nat.ltb_spec (j - start) (stop - start)); [|lia].
    f_equal. lia.
Qed.

Lemma fold_left_Qmax_ge (xs : list Q) :
  forall acc,
    acc <= fold_left Qmax xs acc
    /\ forall x, In x xs -> x <= fold_left Qmax xs acc.
Proof.
  induction xs as [|y ys IH]; intro acc; cbn [fold_left].
  - split; [lra | intros x []].
  - destruct (IH (Qmax acc y)) as [Hacc Hin].
    pose proof (Q.le_max_l acc y). pose proof (Q.le_max_r acc y).
    split; [lra|]. intros x [<-|Hx]; [lra | apply Hin, Hx].
Qed.

Lemma fold_left_Qmin_le (xs : list Q) :
  forall acc,
    fold_left Qmin xs acc <= acc
    /\ forall x, In x xs -> fold_left Qmin xs acc <= x.
Proof.
  induction xs as [|y ys IH]; intro acc; cbn [fold_left].
  - split; [lra | intros x []].
  - destruct (IH (Qmin acc y)) as [Hacc Hin].
    pose proof (Q.le_min_l acc y). pose proof (Q.le_min_r acc y).
    split; [lra|]. intros x [<-|Hx]; [lra | apply Hin, Hx].
Qed.

Lemma series_max_ge (xs : list Q) (x : Q) : In x xs -> x <= series_max xs.
Proof.
  destruct xs as [|y ys]; [intros []|]. cbn [series_max].
  destruct (fold_left_Qmax_ge ys y) as [Hy Hin].
  intros [<-|Hx]; [exact Hy | apply Hin, Hx].
Qed.

Lemma series_min_le (xs : list Q) (x : Q) : In x xs -> series_min xs <= x.
Proof.
  destruct xs as [|y ys]; [intros []|]. cbn [series_min].
  destruct (fold_left_Qmin_le ys y) as [Hy Hin].
  intros [<-|Hx]; [exact Hy | apply Hin, Hx].
Qed.

(** X3: a breakout candle is never bullish and bearish at once; a bullish
    breakout closes strictly above the High of every bar of the look-back
    window, a bearish one strictly below every Low. *)
Theorem breakout_closes_beyond_the_window (df : DataFrame)
    (idx lookback : nat) :
  (idx < length df)%nat ->
  fst (MomentumPatterns.is_breakout_candle df idx lookback)
  && snd (MomentumPatterns.is_breakout_candle df idx lookback) = false
  /\ (fst (MomentumPatterns.is_breakout_candle df idx lookback) = true ->
      (lookback <= idx)%nat
      /\ forall j, (idx - lookback <= j < idx)%nat ->
                   High (iloc df j) < Close (iloc df idx))
  /\ (snd (MomentumPatterns.is_breakout_candle df idx lookback) = true ->
      (lookback <= idx)%nat
      /\ forall j, (idx - lookback <= j < idx)%nat ->
                   Close (iloc df idx) < Low (iloc df j)).
Proof.
  intro Hlen. unfold MomentumPatterns.is_breakout_candle.
  destruct (Nat.ltb_spec idx lookback) as [Hlt|Hge];
    [repeat split; discriminate|].
  destruct (negb _); [repeat split; discriminate|]. cbn [fst snd].
  split; [|split].
  - apply not_true_is_false. intro B. qreflect. lra.
  - intro B. qreflect. split; [exact Hge|]. intros j Hj.
    assert (Hin : In (High (iloc df j)) (column High df (idx - lookback) idx)).
    { unfold column. apply in_map, islice_nth; lia. }
    apply series_max_ge in Hin. lra.
  - intro B. qreflect. split; [exact Hge|]. intros j Hj.
    assert (Hin : In (Low (iloc df j)) (column Low df (idx - lookback) idx)).
    { unfold column. apply in_map, islice_nth; lia. }
    apply series_min_le in Hin. lra.
Qed.

Lemma breakout_closes_beyond_the_window_witness :
  High (iloc sample_df 49) < Close (iloc sample_df 50).
Proof.
  apply (proj1 (proj2 (breakout_closes_beyond_the_window sample_df 50 20
                         ltac:(vm_compute; lia)))).
  - vm_compute. reflexivity.
  - lia.
Defined.

(** ** Momentum score and indicator signals *)

(** X4: the momentum score is 0 during the first 20 bars; it lies between
    -1 and 1 whenever the closes it divides by are not zero (a zero
    reference close gives inf or nan in the source and is not covered);
    from bar 20 on, for positive reference closes, it is positive when the
    close is above both the close 5 bars ago and the close 20 bars ago, and
    negative when it is below both. *)
Theorem momentum_score_range_and_sign (df : DataFrame) (idx : nat) :
  let score := MomentumPatterns.calculate_momentum_score df idx in
  let close := Close (iloc df idx) in
  let close5 := Close (iloc df (idx - 5)) in
  let close20 := Close (iloc df (idx - 20)) in
  ((idx < 20)%nat -> score = 0)
  /\ (reference_closes_nonzero df idx -> -1 <= score <= 1)
  /\ ((20 <= idx)%nat -> 0 < close5 -> 0 < close20 ->
      (close5 < close -> close20 < close -> 0 < score)
      /\ (close < close5 -> close < close20 -> score < 0)).
Proof.
  intros score close close5 close20.
  split; [|split; [intros _; apply calculate_momentum_score_bounds|]];
    unfold score, MomentumPatterns.calculate_momentum_score;
    fold close close5 close20.
  - intro Hidx. destruct (Nat.ltb_spec idx 20); [reflexivity | lia].
  - intros Hidx H5 H20. destruct (Nat.ltb_spec idx 20); [lia|].
    split; intros L5 L20.
    + assert (0 < (close - close5) / close5)
        by (apply Qlt_shift_div_l; lra).
      assert (0 < (close - close20) / close20)
        by (apply Qlt_shift_div_l; lra).
      eapply Qlt_le_trans; [|apply Q.le_max_l].
      apply Q.min_glb_lt; lra.
    + assert ((close - close5) / close5 < 0)
        by (apply Qlt_shift_div_r; lra).
      assert ((close - close20) / close20 < 0)
        by (apply Qlt_shift_div_r; lra).
      apply Q.max_lub_lt; [|lra].
      eapply Qle_lt_trans; [apply Q.le_min_l|]. lra.
Qed.

Lemma momentum_score_range_and_sign_witness :
  0 < MomentumPatterns.calculate_momentum_score sample_df 50.
Proof.
  apply (proj2 (proj2 (momentum_score_range_and_sign sample_df 50)));
    try lia; vm_compute; reflexivity.
Defined.

(** X5: the indicator signals of a bar never contradict each other: RSI is
    not overbought and oversold together, the MACD histogram does not make
    a bullish and a bearish cross together, and (when the lower Bollinger
    band is not above the upper one) the close does not break both bands;
    on the first bar every signal is off. *)
Theorem momentum_signals_are_consistent (df : DataFrame) (idx : nat) :
  let signals := MomentumIndicators.get_momentum_signals df idx in
  MomentumIndicators.rsi_overbought signals
  && MomentumIndicators.rsi_oversold signals = false
  /\ MomentumIndicators.macd_bullish_cross signals
     && MomentumIndicators.macd_bearish_cross signals = false
  /\ (BB_Lower (iloc df idx) <= BB_Upper (iloc df idx) ->
      MomentumIndicators.bb_upper_break signals
      && MomentumIndicators.bb_lower_break signals = false)
  /\ (idx = 0%nat ->
      signals = MomentumIndicators.mkSignals false false false false false false).
Proof.
  cbv zeta. unfold MomentumIndicators.get_momentum_signals.
  destruct (Nat.ltb_spec idx 1) as [Hlt|Hge].
  - repeat split; reflexivity.
  - cbn. split; [|split; [|split]].
    + apply not_true_is_false. intro B. qreflect. lra.
    + apply not_true_is_false. intro B. qreflect. lra.
    + intro Hb. apply not_true_is_false. intro B. qreflect. lra.
    + intro H0. lia.
Qed.

Lemma momentum_signals_are_consistent_witness :
  MomentumIndicators.bb_upper_break
    (MomentumIndicators.get_momentum_signals sample_df 50)
  && MomentumIndicators.bb_lower_break
       (MomentumIndicators.get_momentum_signals sample_df 50) = false.
Proof.
  apply (proj1 (proj2 (proj2 (momentum_signals_are_consistent sample_df 50)))).
  vm_compute. discriminate.
Defined.

(** * Further properties of the rules *)

Section EntrySignals.

Context `{np : Numpy}.

Lemma get_trend_strength_warm_up (df : DataFrame) (idx window : nat) :
  (idx < window)%nat -> MomentumIndicators.get_trend_strength df idx window = 0.
Proof.
  intro H. unfold MomentumIndicators.get_trend_strength.
  destruct (Nat.ltb_spec idx window); [reflexivity | lia].
Qed.

Lemma check_entry_signals_bullish (er : EntryRules.t) (df : DataFrame)
    (idx : nat) :
  fst (EntryRules.check_entry_signals er df idx) = true ->
  (20 <= idx)%nat
  /\ MomentumPatterns.is_momentum_confirmed df idx 1.5 = true
  /\ 0.3 < MomentumIndicators.get_trend_strength df idx 50
  /\ RSI (iloc df idx) <= 70.
Proof.
  unfold EntryRules.check_entry_signals.
  destruct (Nat.ltb_spec idx 20) as [Hlt|Hge]; [discriminate|].
  destruct (CandlestickPatterns.is_engulfing df idx) as [be se].
  destruct (CandlestickPatterns.is_marubozu df idx 0.1) as [bm sm].
  destruct (MomentumPatterns.is_breakout_candle df idx 20) as [bb sb].
  cbn [fst]. intro B.
  apply andb_true_iff in B. destruct B as [B Hrsi].
  apply andb_true_iff in B. destruct B as [B Htrend].
  apply andb_true_iff in B. destruct B as [_ Hconf].
  apply Qgtb_gt in Htrend. apply negb_true_iff in Hrsi.
  unfold MomentumIndicators.get_momentum_signals in Hrsi.
  destruct (Nat.ltb_spec idx 1); [lia|]. cbn in Hrsi. apply Qgtb_le in Hrsi.
  repeat split; assumption.
Qed.

Lemma check_entry_signals_bearish (er : EntryRules.t) (df : DataFrame)
    (idx : nat) :
  snd (EntryRules.check_entry_signals er df idx) = true ->
  (20 <= idx)%nat
  /\ MomentumPatterns.is_momentum_confirmed df idx 1.5 = true
  /\ MomentumIndicators.get_trend_strength df idx 50 < -0.3
  /\ 30 <= RSI (iloc df idx).
Proof.
  unfold EntryRules.check_entry_signals.
  destruct (Nat.ltb_spec idx 20) as [Hlt|Hge]; [discriminate|].
  destruct (CandlestickPatterns.is_engulfing df idx) as [be se].
  destruct (CandlestickPatterns.is_marubozu df idx 0.1) as [bm sm].
  destruct (MomentumPatterns.is_breakout_candle df idx 20) as [bb sb].
  cbn [snd]. intro B.
  apply andb_true_iff in B. destruct B as [B Hrsi].
  apply andb_true_iff in B. destruct B as [B Htrend].
  apply andb_true_iff in B. destruct B as [_ Hconf].
  apply Qltb_lt in Htrend. apply negb_true_iff in Hrsi.
  unfold MomentumIndicators.get_momentum_signals in Hrsi.
  destruct (Nat.ltb_spec idx 1); [lia|]. cbn in Hrsi. apply Qltb_ge in Hrsi.
  repeat split; assumption.
Qed.

Lemma check_entry_signals_before_50 (er : EntryRules.t) (df : DataFrame)
    (idx : nat) :
  (idx < 50)%nat -> EntryRules.check_entry_signals er df idx = (false, false).
Proof.
  intro Hidx.
  destruct (EntryRules.check_entry_signals er df idx) as [[|] [|]] eqn:E;
    try reflexivity; exfalso.
  - destruct (check_entry_signals_bullish er df idx) as (_ & _ & T & _);
      [rewrite E; reflexivity|].
    rewrite get_trend_strength_warm_up in T by exact Hidx. lra.
  - destruct (check_entry_signals_bullish er df idx) as (_ & _ & T & _);
      [rewrite E; reflexivity|].
    rewrite get_trend_strength_warm_up in T by exact Hidx. lra.
  - destruct (check_entry_signals_bearish er df idx) as (_ & _ & T & _);
      [rewrite E; reflexivity|].
    rewrite get_trend_strength_warm_up in T by exact Hidx. lra.
Qed.

(** X6: the entry rules never signal a long and a short on the same bar (a
    long needs a trend strength above 0.3, a short one below -0.3), never
    signal before bar 50 (the trend strength is 0 until its 50-bar window
    is filled), and a long signal implies volume confirmation and an RSI of
    at most 70, a short signal volume confirmation and an RSI of at least
    30. *)
Theorem entry_signals_are_exclusive_and_gated (er : EntryRules.t)
    (df : DataFrame) (idx : nat) :
  let signals := EntryRules.check_entry_signals er df idx in
  fst signals && snd signals = false
  /\ ((idx < 50)%nat -> signals = (false, false))
  /\ (fst signals = true ->
      MomentumPatterns.is_momentum_confirmed df idx 1.5 = true
      /\ 0.3 < MomentumIndicators.get_trend_strength df idx 50
      /\ RSI (iloc df idx) <= 70)
  /\ (snd signals = true ->
      MomentumPatterns.is_momentum_confirmed df idx 1.5 = true
      /\ MomentumIndicators.get_trend_strength df idx 50 < -0.3
      /\ 30 <= RSI (iloc df idx)).
Proof.
  cbv zeta. split; [|split; [|split]].
  - apply not_true_is_false. intro B.
    apply andb_true_iff in B. destruct B as [Bl Bs].
    destruct (check_entry_signals_bullish er df idx Bl) as (_ & _ & Tl & _).
    destruct (check_entry_signals_bearish er df idx Bs) as (_ & _ & Ts & _).
    lra.
  - apply check_entry_signals_before_50.
  - intro B. apply (check_entry_signals_bullish er df idx B).
  - intro B. apply (check_entry_signals_bearish er df idx B).
Qed.

End EntrySignals.

Lemma entry_signals_are_exclusive_and_gated_witness :
  0.3 < MomentumIndicators.get_trend_strength (np := sample_numpy)
          sample_df 50 50
  /\ EntryRules.check_entry_signals (np := sample_numpy)
       (EntryRules.mk default_rules) sample_df 49
     = (false, false).
Proof.
  pose proof (@entry_signals_are_exclusive_and_gated sample_numpy
                (EntryRules.mk default_rules) sample_df 50)
    as (_ & _ & Hlong & _).
  pose proof (@entry_signals_are_exclusive_and_gated sample_numpy
                (EntryRules.mk default_rules) sample_df 49)
    as (_ & Hearly & _).
  split.
  - apply Hlong. vm_compute. reflexivity.
  - apply Hearly. lia.
Defined.

(** * Further properties of the engine *)

Section EngineDetails.

Context `{np : Numpy}.

Import BacktestEngine.


(** What exactly a bar does to an open position. *)
Lemma process_bar_open_details (self : t) (df : DataFrame) (idx : nat)
    (p : Position.t) :
  current_position self = Some p ->
  let p' := revised (exit_rules self) df idx p in
  let current_bar := iloc df idx in
  let signal :=
    ExitRules.check_exit_signals (exit_rules self) df idx (Position.type p) in
  (hit_stop p' current_bar = false /\ hit_target p' current_bar = false
   /\ signal = false
   /\ fst (process_bar self df idx) = set_current_position self (Some p'))
  \/ exists exit_price exit_reason,
       fst (process_bar self df idx)
       = _close_position (set_current_position self (Some p'))
           exit_price (Time current_bar) exit_reason
       /\ ((exit_reason = Stop /\ exit_price = Position.trailing_stop p'
            /\ hit_stop p' current_bar = true)
           \/ (exit_reason = Target /\ exit_price = Position.take_profit p
               /\ hit_stop p' current_bar = false
               /\ hit_target p' current_bar = true)
           \/ (exit_reason = Signal /\ exit_price = Close current_bar
               /\ hit_stop p' current_bar = false
               /\ hit_target p' current_bar = false /\ signal = true)).
Proof.
  intros Hp p' current_bar signal. unfold process_bar. rewrite Hp. cbn [fst].
  rewrite (_check_position_exit_open self df idx p Hp).
  fold p' current_bar signal.
  destruct (hit_stop p' current_bar) eqn:Hs.
  - right. eexists. eexists. split; [reflexivity|]. left. repeat split.
  - destruct (hit_target p' current_bar) eqn:Ht.
    + right. eexists. eexists. split; [reflexivity|]. right. left.
      repeat split.
    + destruct signal eqn:Hg.
      * right. eexists. eexists. split; [reflexivity|]. right. right.
        repeat split.
      * left. repeat split.
Qed.

End EngineDetails.

(** ** Invariants of the positions and of the ledger *)

Section RunInvariants.

Context `{np : Numpy}.

Import BacktestEngine.

Lemma process_bar_open_fill (self : t) (df : DataFrame) (idx : nat)
    (p : Position.t) :
  current_position self = Some p ->
  let p' := revised (exit_rules self) df idx p in
  fst (process_bar self df idx) = set_current_position self (Some p')
  \/ exists exit_price exit_reason,
       exit_fill p' (iloc df idx) exit_reason exit_price
       /\ fst (process_bar self df idx)
          = _close_position (set_current_position self (Some p'))
              exit_price (Time (iloc df idx)) exit_reason.
Proof.
  intros Hp p'.
  destruct (process_bar_open_details self df idx p Hp)
    as [(_ & _ & _ & E)
       |(price & reason & E
         & [(-> & -> & Hs)|[(-> & -> & Hs & Ht)|(-> & -> & Hs & Ht & _)]])].
  - left. exact E.
  - right. exists (Position.trailing_stop p'), Stop.
    split; [constructor; exact Hs | exact E].
  - right. exists (Position.take_profit p'), Target.
    split; [constructor; assumption | exact E].
  - right. exists (Close (iloc df idx)), Signal.
    split; [constructor; assumption | exact E].
Qed.

Variable self : t.
Variable df : DataFrame.
Variable position_ok : Position.t -> Prop.
Variable trade_ok : Trade.t -> Prop.

Hypothesis opened_ok :
  forall (s : t) (idx : nat) (p : Position.t),
    same_settings s self -> current_position s = None ->
    current_position (fst (process_bar s df idx)) = Some p -> position_ok p.

Hypothesis revised_ok :
  forall (idx : nat) (p : Position.t),
    position_ok p -> position_ok (revised (exit_rules self) df idx p).

Hypothesis closed_ok :
  forall (idx : nat) (p : Position.t) (exit_reason : ExitReason)
         (exit_price : Q),
    (1 <= idx)%nat -> position_ok p ->
    exit_fill (revised (exit_rules self) df idx p) (iloc df idx)
      exit_reason exit_price ->
    trade_ok (closing_trade (revised (exit_rules self) df idx p) exit_price
                (Time (iloc df idx)) exit_reason).

(** A property of positions established at every entry and kept by the
    revision of the trailing stop holds of the open position throughout a
    run, and what it gives at every exit holds of every recorded trade. *)
Lemma positions_and_trades_after (k : nat) :
  (forall p, current_position (state_after self df k) = Some p ->
             position_ok p)
  /\ Forall trade_ok (trades (state_after self df k)).
Proof.
  induction k as [|k [IHp IHt]].
  - split; [intros p Hp; discriminate | constructor].
  - rewrite state_after_S.
    destruct (bar_step_fields (state_after self df k) df k)
      as (Ft & _ & _ & Fp & _).
    rewrite Ft, Fp.
    pose proof (state_after_settings self df k) as Hset.
    destruct (current_position (state_after self df k)) as [p|] eqn:Hp.
    + assert (Hk : (1 <= k)%nat).
      { destruct k; [discriminate Hp | lia]. }
      destruct Hset as (_ & Hxr & _).
      destruct (process_bar_open_fill (state_after self df k) df k p Hp)
        as [E|(price & reason & Hfill & E)]; rewrite E, Hxr in *.
      * split; [|exact IHt].
        intros q Hq. cbn in Hq. injection Hq as <-.
        apply revised_ok, IHp. reflexivity.
      * rewrite (_close_position_open _ (revised (exit_rules self) df k p))
          by reflexivity.
        cbn [current_position trades set_current_position].
        split; [intros q Hq; discriminate|].
        apply Forall_app. split; [exact IHt|].
        constructor; [|constructor].
        apply closed_ok; [exact Hk | apply IHp; reflexivity | exact Hfill].
    + destruct (process_bar_flat (state_after self df k) df k Hp)
        as [E|(_ & ty & sl & tp & E)].
      * rewrite E, Hp. split; [intros q Hq; discriminate | exact IHt].
      * split.
        -- intros q Hq. apply (opened_ok (state_after self df k) k q Hset Hp Hq).
        -- rewrite E. exact IHt.
Qed.

End RunInvariants.

Section LedgerShape.

Context `{np : Numpy}.

Import BacktestEngine.

Lemma process_bar_before_50 (self : t) (df : DataFrame) (idx : nat) :
  current_position self = None -> (idx < 50)%nat ->
  fst (process_bar self df idx) = self.
Proof.
  intros Hp Hidx. unfold process_bar. rewrite Hp. cbn [fst].
  destruct (20 <=? idx)%nat; [|reflexivity].
  unfold _check_new_entry.
  rewrite check_entry_signals_before_50 by exact Hidx. reflexivity.
Qed.

Lemma state_after_before_50 (self : t) (df : DataFrame) (k : nat) :
  (k <= 50)%nat ->
  current_position (state_after self df k) = None
  /\ trades (state_after self df k) = []
  /\ trade_count (state_after self df k) = 0%nat
  /\ equity (state_after self df k) = initial_capital self.
Proof.
  induction k as [|k IH]; intro Hk.
  - repeat split.
  - destruct IH as (Hp & Ht & Hc & He); [lia|].
    rewrite state_after_S.
    destruct (bar_step_fields (state_after self df k) df k)
      as (Ft & Fe & Fc & Fp & _).
    rewrite Ft, Fe, Fc, Fp, process_bar_before_50 by (trivial; lia).
    repeat split; assumption.
Qed.

(** X7: no position is ever opened on the first 50 bars (the entry rules
    need the 50-bar trend window, whatever the 20-bar test of
    [process_bar]): after any of them the engine is flat, its ledger is
    empty and its equity is the initial capital; so [run] on a series of at
    most 50 bars ends in [ZeroDivisionError]. *)
Theorem no_entry_before_bar_50 (self : t) (df : DataFrame) :
  (forall k, (k <= 50)%nat ->
     current_position (state_after self df k) = None
     /\ trades (state_after self df k) = []
     /\ trade_count (state_after self df k) = 0%nat
     /\ equity (state_after self df k) = initial_capital self)
  /\ ((length df <= 50)%nat -> snd (run self df) = Raised ZeroDivisionError).
Proof.
  split; [intros k Hk; apply state_after_before_50, Hk|].
  intro Hlen.
  change (snd (run self df)) with (_generate_results (fst (run self df))).
  rewrite run_state_after. unfold _generate_results.
  destruct (state_after_before_50 self df (length df) Hlen) as (_ & -> & _).
  reflexivity.
Qed.

Lemma ids_in_order_step (self : t) (df : DataFrame) (idx : nat) :
  one_position self /\ ids_in_order self ->
  one_position (bar_step self df idx) /\ ids_in_order (bar_step self df idx).
Proof.
  intros [Hone Hids]. split; [apply one_position_step, Hone|].
  unfold ids_in_order in *.
  destruct (bar_step_fields self df idx) as (Ft & _).
  rewrite Ft.
  destruct (process_bar_outcome self df idx)
    as [Ht _ _ _ _ | p _ _ _ Ht _ _ _ _ | p trade Hp _ Ht _ _ Hid _];
    rewrite Ht; try exact Hids.
  unfold one_position in Hone. rewrite Hp in Hone.
  destruct Hone as [Hc Hpid].
  rewrite map_app, length_app, Hids. cbn [map length].
  rewrite Nat.add_1_r, seq_S. f_equal. f_equal.
  rewrite Hid, Hpid, Hc. reflexivity.
Qed.

(** X8: trade ids are assigned when positions open and recorded when they
    close: after any number of bars the ids in the ledger are exactly
    1, 2, ..., n in order, and an open position carries the id n + 1. *)
Theorem trade_ids_are_sequential (self : t) (df : DataFrame) (k : nat) :
  let s := state_after self df k in
  map Trade.id (trades s) = seq 1 (length (trades s))
  /\ (forall p, current_position s = Some p ->
        Position.trade_id p = S (length (trades s)))
  /\ map Trade.id (trades (fst (run self df)))
     = seq 1 (length (trades (fst (run self df)))).
Proof.
  assert (H : forall j, one_position (state_after self df j)
                        /\ ids_in_order (state_after self df j)).
  { intro j. apply state_after_ind.
    - split; reflexivity.
    - intros s idx. apply ids_in_order_step. }
  cbv zeta. split; [apply H|]. split.
  - intros p Hp. destruct (H k) as [Hone _].
    unfold one_position in Hone. rewrite Hp in Hone.
    destruct Hone as [Hc Hid]. congruence.
  - rewrite run_state_after. apply H.
Qed.

(** X9: the equity curve holds one sample per processed bar, the sample of
    bar [j] being the (realised) equity once that bar has been processed;
    in particular the curve of a run has as many samples as the series has
    bars. *)
Theorem equity_curve_samples (self : t) (df : DataFrame) (k : nat) :
  equity_curve (state_after self df k)
  = map (fun j => equity (state_after self df (S j))) (seq 0 k)
  /\ length (equity_curve (state_after self df k)) = k
  /\ length (equity_curve (fst (run self df))) = length df.
Proof.
  assert (H : forall j,
             equity_curve (state_after self df j)
             = map (fun i => equity (state_after self df (S i))) (seq 0 j)).
  { induction j as [|j IH]; [reflexivity|].
    rewrite seq_S, map_app. cbn [map Nat.add]. rewrite <- IH.
    rewrite !state_after_S.
    set (s := state_after self df j).
    destruct (bar_step_fields s df j) as (_ & Fe & _ & _ & Fq).
    rewrite Fq, Fe. f_equal.
    destruct (current_position s) as [p|] eqn:Hp.
    - destruct (process_bar_open s df j p Hp) as [E|(price & reason & E)];
        rewrite E; [reflexivity|].
      rewrite (_close_position_open _ (revised _ df j p)) by reflexivity.
      reflexivity.
    - destruct (process_bar_flat s df j Hp) as [E|(_ & ty & sl & tp & E)];
        rewrite E; reflexivity. }
  split; [apply H|].
  split; [rewrite H, length_map, length_seq; reflexivity|].
  rewrite run_state_after, H, length_map, length_seq. reflexivity.
Qed.

End LedgerShape.

Lemma no_entry_before_bar_50_witness :
  snd (BacktestEngine.run (np := sample_numpy) sample_engine
         (firstn 50 sample_df))
  = Raised ZeroDivisionError.
Proof.
  apply (proj2 (@no_entry_before_bar_50 sample_numpy sample_engine
                  (firstn 50 sample_df))).
  vm_compute. lia.
Defined.

Section LedgerBounds.

Context `{np : Numpy}.

Import BacktestEngine.







(** X11: every trade closed by the stop is filled within one per cent of
    its entry price: not below 0.99 x entry for a long, not above
    1.01 x entry for a short. *)
Theorem stop_exits_within_one_percent (self : t) (df : DataFrame) (k : nat) :
  Forall stop_within_one_percent (trades (state_after self df k))
  /\ Forall stop_within_one_percent (trades (fst (run self df))).
Proof.
  assert (H : forall j,
             Forall stop_within_one_percent (trades (state_after self df j))).
  { intro j.
    apply (positions_and_trades_after self df (fun _ => True)); trivial.
    intros idx p reason price Hidx _ Hfill Hreason.
    inversion Hfill as [Hstop Er Ep | ? ? Er Ep | ? ? Er Ep];
      subst; try discriminate.
    destruct (calculate_trailing_stop_bounds (exit_rules self) df idx
                (Position.entry_price p) Hidx) as [Hlong Hshort].
    cbn. unfold revised. cbn.
    destruct (Position.type p); assumption. }
  split; [apply H | rewrite run_state_after; apply H].
Qed.


End LedgerBounds.

(** ** Forced exits *)

Section ForcedExits.

Context `{np : Numpy}.

Import BacktestEngine.





Lemma check_exit_signals_rsi (xr : ExitRules.t) (df : DataFrame) (idx : nat) :
  (1 <= idx)%nat ->
  (70 < RSI (iloc df idx) ->
   ExitRules.check_exit_signals xr df idx long = true)
  /\ (RSI (iloc df idx) < 30 ->
      ExitRules.check_exit_signals xr df idx short = true).
Proof.
  intro Hidx. unfold ExitRules.check_exit_signals.
  destruct (Nat.ltb_spec idx 1); [lia|].
  destruct (CandlestickPatterns.is_engulfing df idx) as [be se].
  unfold MomentumIndicators.get_momentum_signals.
  destruct (Nat.ltb_spec idx 1); [lia|]. cbn.
  split; intro Hrsi.
  - apply Qgtb_gt in Hrsi. rewrite Hrsi. apply orb_true_r.
  - apply Qltb_lt in Hrsi. rewrite Hrsi. apply orb_true_r.
Qed.

(** X14: an open long never survives a bar whose RSI is above 70, nor an
    open short a bar whose RSI is below 30: the position is closed on that
    bar and exactly one trade, carrying its id, is recorded. *)
Theorem rsi_extreme_closes_the_position (self : t) (df : DataFrame)
    (idx : nat) (p : Position.t) :
  current_position self = Some p ->
  (1 <= idx)%nat ->
  (Position.type p = long /\ 70 < RSI (iloc df idx))
  \/ (Position.type p = short /\ RSI (iloc df idx) < 30) ->
  exists trade,
    closed_with self (fst (process_bar self df idx)) trade
    /\ Trade.id trade = Position.trade_id p.
Proof.
  intros Hp Hidx Hrsi.
  assert (Hsig : ExitRules.check_exit_signals (exit_rules self) df idx
                   (Position.type p) = true).
  { destruct (check_exit_signals_rsi (exit_rules self) df idx Hidx)
      as [Hl Hs].
    destruct Hrsi as [[-> H]|[-> H]]; auto. }
  destruct (process_bar_open_details self df idx p Hp)
    as [(_ & _ & Hno & _)|(price & reason & E & _)]; [congruence|].
  rewrite E. eexists. split; [apply closed_with_close | reflexivity].
Qed.

End ForcedExits.

(** ** The run summary *)

Section Summary.

Import BacktestEngine.

Lemma length_expanding_max_from (xs : list Q) :
  forall m, length (expanding_max_from m xs) = length xs.
Proof. induction xs as [|x r IH]; intro m; cbn; [reflexivity | now rewrite IH]. Qed.

Lemma length_expanding_max (xs : list Q) :
  length (expanding_max xs) = length xs.
Proof. destruct xs; cbn; [reflexivity | now rewrite length_expanding_max_from]. Qed.

Lemma expanding_max_from_lub (xs : list Q) :
  forall m j, (j < length xs)%nat ->
    m <= nth j (expanding_max_from m xs) 0
    /\ (forall i, (i <= j)%nat -> nth i xs 0 <= nth j (expanding_max_from m xs) 0)
    /\ (forall c, m <= c -> (forall i, (i <= j)%nat -> nth i xs 0 <= c) ->
                  nth j (expanding_max_from m xs) 0 <= c).
Proof.
  induction xs as [|x r IH]; intros m j Hj; [cbn in Hj; lia|].
  cbn [expanding_max_from]. destruct j as [|j].
  - cbn [nth]. split; [apply Q.le_max_l|]. split.
    + intros i Hi. replace i with 0%nat by lia. apply Q.le_max_r.
    + intros c Hm Hc. apply Q.max_lub; [exact Hm | apply (Hc 0%nat); lia].
  - cbn [nth]. cbn in Hj.
    destruct (IH (Qmax m x) j ltac:(lia)) as (Hm & Hge & Hlub).
    pose proof (Q.le_max_l m x). pose proof (Q.le_max_r m x).
    split; [lra|]. split.
    + intros [|i] Hi; [cbn; lra | cbn; apply Hge; lia].
    + intros c Hmc Hc. apply Hlub.
      * apply Q.max_lub; [exact Hmc | apply (Hc 0%nat); lia].
      * intros i Hi. apply (Hc (S i)). lia.
Qed.

Lemma expanding_max_lub (xs : list Q) (j : nat) :
  (j < length xs)%nat ->
  (forall i, (i <= j)%nat -> nth i xs 0 <= nth j (expanding_max xs) 0)
  /\ (forall c, (forall i, (i <= j)%nat -> nth i xs 0 <= c) ->
                nth j (expanding_max xs) 0 <= c).
Proof.
  destruct xs as [|x r]; [cbn; lia|]. intro Hj. cbn [expanding_max].
  destruct j as [|j].
  - cbn. split.
    + intros i Hi. replace i with 0%nat by lia. cbn. lra.
    + intros c Hc. apply (Hc 0%nat). lia.
  - cbn in Hj. cbn [nth].
    destruct (expanding_max_from_lub r x j ltac:(lia)) as (Hm & Hge & Hlub).
    split.
    + intros [|i] Hi; [cbn; exact Hm | cbn; apply Hge; lia].
    + intros c Hc. apply Hlub; [apply (Hc 0%nat); lia|].
      intros i Hi. apply (Hc (S i)). lia.
Qed.

Lemma nth_drawdowns (xs : list Q) (j : nat) :
  (j < length xs)%nat ->
  nth j (drawdowns xs) 0 = nth j xs 0 - nth j (expanding_max xs) 0.
Proof.
  intro Hj. unfold drawdowns.
  set (f := fun p : Q * Q => fst p - snd p).
  transitivity (nth j (map f (combine xs (expanding_max xs))) (f (0, 0))).
  - apply nth_indep.
    rewrite length_map, length_combine, length_expanding_max. lia.
  - rewrite (map_nth f), combine_nth by (now rewrite length_expanding_max).
    reflexivity.
Qed.

Lemma fold_left_Qmin_glb (xs : list Q) :
  forall acc c, c <= acc -> (forall x, In x xs -> c <= x) ->
                c <= fold_left Qmin xs acc.
Proof.
  induction xs as [|y ys IH]; intros acc c Ha Hx; cbn [fold_left]; [exact Ha|].
  apply IH.
  - apply Q.min_glb; [exact Ha | apply Hx; left; reflexivity].
  - intros x Hin. apply Hx. right. exact Hin.
Qed.

Lemma series_min_glb (xs : list Q) (c : Q) :
  xs <> [] -> (forall x, In x xs -> c <= x) -> c <= series_min xs.
Proof.
  destruct xs as [|y ys]; [congruence|]. intros _ Hx. cbn [series_min].
  apply fold_left_Qmin_glb.
  - apply Hx. left. reflexivity.
  - intros x Hin. apply Hx. right. exact Hin.
Qed.

(** X15: on a non-empty equity curve the maximum drawdown is not negative
    and bounds every drop of the curve, from any sample to any later
    sample; it is zero when the curve never decreases. *)
Theorem max_drawdown_bounds_every_drop (equity_curve : list Q) :
  equity_curve <> [] ->
  0 <= _calculate_max_drawdown equity_curve
  /\ (forall i j, (i <= j < length equity_curve)%nat ->
        nth i equity_curve 0 - nth j equity_curve 0
        <= _calculate_max_drawdown equity_curve)
  /\ ((forall i j, (i <= j < length equity_curve)%nat ->
         nth i equity_curve 0 <= nth j equity_curve 0) ->
      _calculate_max_drawdown equity_curve == 0).
Proof.
  intros _. unfold _calculate_max_drawdown. fold (drawdowns equity_curve).
  split; [apply Qabs_nonneg|]. split.
  - intros i j [Hij Hj].
    destruct (expanding_max_lub equity_curve j Hj) as [Hge _].
    assert (Hin : In (nth j (drawdowns equity_curve) 0) (drawdowns equity_curve)).
    { apply nth_In. unfold drawdowns.
      rewrite length_map, length_combine, length_expanding_max. lia. }
    apply series_min_le in Hin. rewrite nth_drawdowns in Hin by exact Hj.
    pose proof (Hge i Hij).
    pose proof (Qle_Qabs (- series_min (drawdowns equity_curve))) as Habs.
    rewrite Qabs_opp in Habs. lra.
  - intro Hmono.
    destruct equity_curve as [|x r] eqn:Ecurve; [reflexivity|].
    rewrite <- Ecurve in *.
    assert (Hall : forall d, In d (drawdowns equity_curve) -> d == 0).
    { intros d Hd. destruct (In_nth _ _ 0 Hd) as (j & Hj & <-).
      unfold drawdowns in Hj.
      rewrite length_map, length_combine, length_expanding_max in Hj.
      assert (Hj' : (j < length equity_curve)%nat) by lia.
      rewrite nth_drawdowns by exact Hj'.
      destruct (expanding_max_lub equity_curve j Hj') as [Hge Hlub].
      pose proof (Hge j (le_n j)).
      assert (nth j (expanding_max equity_curve) 0 <= nth j equity_curve 0).
      { apply Hlub. intros i Hi. apply Hmono. lia. }
      lra. }
    assert (Hne : drawdowns equity_curve <> []).
    { rewrite Ecurve. discriminate. }
    assert (Hlo : 0 <= series_min (drawdowns equity_curve)).
    { apply series_min_glb; [exact Hne|]. intros d Hd.
      rewrite (Hall d Hd). lra. }
    assert (Hhi : series_min (drawdowns equity_curve) <= 0).
    { destruct (drawdowns equity_curve) as [|d ds] eqn:Ed; [congruence|].
      rewrite <- (Hall d) by (left; reflexivity).
      apply series_min_le. left. reflexivity. }
    assert (E : series_min (drawdowns equity_curve) == 0) by lra.
    rewrite E. reflexivity.
Qed.

Lemma max_drawdown_bounds_every_drop_witness :
  100 - 90 <= _calculate_max_drawdown [100; 90; 95].
Proof.
  apply (proj1 (proj2 (max_drawdown_bounds_every_drop [100; 90; 95]
                         ltac:(discriminate))) 0%nat 1%nat).
  cbn. lia.
Defined.

End Summary.

Section RunSummary.

Context `{np : Numpy}.

Import BacktestEngine.

Lemma state_after_51_no_trades (self : t) (df : DataFrame) (k : nat) :
  (k <= 51)%nat -> trades (state_after self df k) = [].
Proof.
  intro Hk. destruct (Nat.le_gt_cases k 50) as [H50|H50].
  - apply (state_after_before_50 self df k H50).
  - replace k with 51%nat by lia. rewrite state_after_S.
    destruct (state_after_before_50 self df 50 (le_n 50)) as (Hp & Ht & _).
    generalize dependent (state_after self df 50). intros s Hp Ht.
    destruct (bar_step_fields s df 50) as (Ft & _).
    rewrite Ft.
    destruct (process_bar_flat s df 50 Hp)
      as [E|(_ & ty & sl & tp & E)]; rewrite E; exact Ht.
Qed.

Lemma inject_nat_le (a b : nat) :
  (a <= b)%nat -> inject_Z (Z.of_nat a) <= inject_Z (Z.of_nat b).
Proof. intro H. unfold Qle, inject_Z. cbn [Qnum Qden]. lia. Qed.

Lemma inject_nat_pos (a : nat) : (1 <= a)%nat -> 0 < inject_Z (Z.of_nat a).
Proof. intro H. unfold Qlt, inject_Z. cbn [Qnum Qden]. lia. Qed.

Lemma win_rate_bounds (wins total : nat) (q : Q) :
  (wins <= total)%nat -> int_div wins total = Returned q -> 0 <= q <= 1.
Proof.
  intros Hle. unfold int_div. destruct total as [|n]; [discriminate|].
  intro E. injection E as <-.
  pose proof (inject_nat_pos (S n) ltac:(lia)) as Hpos.
  pose proof (inject_nat_le 0 wins ltac:(lia)) as H0.
  pose proof (inject_nat_le wins (S n) Hle) as H1.
  change (inject_Z (Z.of_nat 0)) with 0 in H0.
  cbn [Z.of_nat] in Hpos, H1.
  set (a := inject_Z (Z.of_nat wins)) in *.
  set (b := inject_Z (Z.pos _)) in *.
  split.
  - apply Qle_shift_div_l; [exact Hpos | lra].
  - apply Qle_shift_div_r; [exact Hpos | lra].
Qed.

(** X16: when [run] returns a summary, the series has at least 52 bars (an
    entry needs bar 50 and an exit a later bar), the ledger holds at least
    one trade and as many as [trade_count] says, the win rate lies between
    0 and 1, the equity curve has one sample per bar, the average trade
    times the number of trades is the final equity less the initial
    capital, and (for a non-zero initial capital) so is the total return
    times the initial capital. *)
Theorem run_summary_is_consistent (self : t) (df : DataFrame) (r : Results) :
  snd (run self df) = Returned r ->
  (52 <= length df)%nat
  /\ r_trade_count r = length (r_trades r)
  /\ (1 <= r_trade_count r)%nat
  /\ 0 <= r_win_rate r <= 1
  /\ length (r_equity_curve r) = length df
  /\ r_average_trade r * inject_Z (Z.of_nat (r_trade_count r))
     == r_final_equity r - r_initial_capital r
  /\ (~ initial_capital self == 0 ->
      r_total_return r * initial_capital self
      == r_final_equity r - r_initial_capital r).
Proof.
  change (snd (run self df)) with (_generate_results (fst (run self df))).
  rewrite run_state_after. set (s := state_after self df (length df)).
  intro Hr.
  destruct (_generate_results_returned s r Hr) as (R1 & R2 & R3 & R4 & Hne).
  pose proof (books_balance_after self df (length df)) as [Hbal _].
  fold s in Hbal.
  destruct (state_after_settings self df (length df)) as (_ & _ & Hcap & _).
  fold s in Hcap.
  unfold _generate_results in Hr.
  destruct (int_div _ _) as [q|e] eqn:Hq; [|discriminate].
  injection Hr as <-. cbn [r_trade_count r_trades r_win_rate r_equity_curve
    r_average_trade r_final_equity r_initial_capital r_total_return].
  split; [|split; [reflexivity|split; [|split; [|split; [|split]]]]].
  - destruct (Nat.le_gt_cases (length df) 51) as [H51|H51]; [|lia].
    exfalso. apply Hne. apply (state_after_51_no_trades self df _ H51).
  - destruct (trades s); [congruence | cbn; lia].
  - apply (win_rate_bounds _ _ q) in Hq; [exact Hq|]. apply filter_length_le.
  - exact (equity_curve_length self df (length df)).
  - unfold mean. rewrite length_map.
    assert (Hpos : 0 < inject_Z (Z.of_nat (length (trades s)))).
    { apply inject_nat_pos. destruct (trades s); [congruence | cbn; lia]. }
    set (n := inject_Z (Z.of_nat (length (trades s)))) in *.
    rewrite <- Hbal. field. lra.
  - intro Hnz. rewrite Hcap. field. exact Hnz.
Qed.

End RunSummary.

Lemma run_summary_is_consistent_witness :
  exists r,
    snd (BacktestEngine.run (np := sample_numpy) sample_engine sample_df)
    = Returned r
    /\ length (BacktestEngine.r_equity_curve r) = length sample_df.
Proof.
  destruct (snd (BacktestEngine.run (np := sample_numpy) sample_engine
                   sample_df)) as [r|e] eqn:E.
  - exists r. split; [reflexivity|].
    apply (@run_summary_is_consistent sample_numpy sample_engine sample_df r E).
  - vm_compute in E. discriminate.
Defined.

(** * Further properties of the stops *)

(** X17: with a positive ATR floor and a positive base multiplier, on
    every bar whose ATR is a number (zero and negative numbers included;
    a NaN ATR passes through [max] and is not covered) the dynamic stops
    are strictly positive: from the second bar on the stop distance is at
    least 0.75 x base multiplier x floor and the take-profit distance twice
    the stop distance; on the first bar there are no stops. *)
Theorem dynamic_stops_are_positive (vi : VolatilityIndicators.t)
    (df : DataFrame) (idx : nat) (base_multiplier : Q) :
  let minimum_atr :=
    VolatilityIndicators.minimum_atr_value (VolatilityIndicators.params vi) in
  0 < minimum_atr -> 0 < base_multiplier ->
  (idx = 0%nat ->
   VolatilityIndicators.get_dynamic_stops vi df idx base_multiplier = None)
  /\ ((1 <= idx)%nat ->
      exists stop_distance take_profit_distance,
        VolatilityIndicators.get_dynamic_stops vi df idx base_multiplier
        = Some (stop_distance, take_profit_distance)
        /\ 0 < stop_distance
        /\ 0.75 * base_multiplier * minimum_atr <= stop_distance
        /\ stop_distance < take_profit_distance
        /\ take_profit_distance == 2 * stop_distance).
Proof.
  intros minimum_atr Hmin Hbase. split.
  - intros ->. reflexivity.
  - intro Hidx. eexists. eexists.
    split; [apply get_dynamic_stops_some; exact Hidx|].
    fold minimum_atr.
    pose proof (Q.le_max_r (ATR (iloc df idx)) minimum_atr) as Ha.
    set (a := Qmax (ATR (iloc df idx)) minimum_atr) in *.
    assert (Hm : 0.75 <= VolatilityIndicators.regime_multipliers
                          (Volatility_Regime (iloc df idx)))
      by (destruct (Volatility_Regime (iloc df idx)); cbn; lra).
    set (m := VolatilityIndicators.regime_multipliers _) in *.
    assert (0.75 * base_multiplier <= base_multiplier * m) by nra.
    assert (0.75 * base_multiplier * minimum_atr <= a * (base_multiplier * m))
      by nra.
    assert (0 < 0.75 * base_multiplier * minimum_atr) by nra.
    repeat split; lra.
Qed.

Lemma dynamic_stops_are_positive_witness :
  exists stop_distance take_profit_distance,
    VolatilityIndicators.get_dynamic_stops default_rules
      [candle 10 10 8 8; candle 7 11 7 11] 1 2
    = Some (stop_distance, take_profit_distance)
    /\ 0 < stop_distance.
Proof.
  destruct (proj2 (dynamic_stops_are_positive default_rules
                     [candle 10 10 8 8; candle 7 11 7 11] 1 2
                     ltac:(reflexivity) ltac:(reflexivity)) (le_n 1))
    as (sd & tp & E & Hpos & _).
  exists sd, tp. split; assumption.
Defined.

(** X18: [should_move_stop_to_breakeven] never fires on the first bar;
    afterwards it fires for a long exactly when the close is at least one
    stop distance (half the take-profit distance) above the entry price,
    and for a short exactly when it is at least one stop distance below. *)
Theorem breakeven_after_one_stop_distance (xr : ExitRules.t) (df : DataFrame)
    (idx : nat) (position_type : PositionType) (entry_price : Q) :
  let vi := ExitRules.volatility_indicators xr in
  let stop_distance :=
    stop_distance_spec
      (VolatilityIndicators.minimum_atr_value (VolatilityIndicators.params vi))
      (ATR (iloc df idx)) 2 (Volatility_Regime (iloc df idx)) in
  (idx = 0%nat ->
   ExitRules.should_move_stop_to_breakeven xr df idx position_type entry_price
   = false)
  /\ ((1 <= idx)%nat ->
      (ExitRules.should_move_stop_to_breakeven xr df idx long entry_price
       = true
       <-> entry_price + stop_distance <= Close (iloc df idx))
      /\ (ExitRules.should_move_stop_to_breakeven xr df idx short entry_price
          = true
          <-> Close (iloc df idx) <= entry_price - stop_distance)).
Proof.
  intros vi stop_distance. split.
  - intros ->. reflexivity.
  - intro Hidx. unfold ExitRules.should_move_stop_to_breakeven.
    destruct (Nat.ltb_spec idx 1); [lia|].
    rewrite get_dynamic_stops_some by exact Hidx. fold vi.
    assert (E : Qmax (ATR (iloc df idx))
                  (VolatilityIndicators.minimum_atr_value
                     (VolatilityIndicators.params vi))
                * (2.0 * VolatilityIndicators.regime_multipliers
                           (Volatility_Regime (iloc df idx))) * 2 * 0.5
                == stop_distance).
    { unfold stop_distance, stop_distance_spec.
      rewrite regime_multipliers_spec.
      destruct (Volatility_Regime (iloc df idx)); lra. }
    split.
    + rewrite Qgeb_ge, E. reflexivity.
    + rewrite Qleb_le, E. reflexivity.
Qed.

Lemma breakeven_after_one_stop_distance_witness :
  ExitRules.should_move_stop_to_breakeven (ExitRules.mk default_rules)
    sample_df 51 long 160
  = true.
Proof.
  apply (proj2 (breakeven_after_one_stop_distance (ExitRules.mk default_rules)
                  sample_df 51 long 160)).
  - lia.
  - vm_compute. discriminate.
Defined.

(** * The further properties at concrete inputs *)

Lemma trade_ids_are_sequential_witness :
  Position.trade_id (sample_position_at 52)
  = S (length (BacktestEngine.trades (sample_state 52))).
Proof.
  apply (proj1 (proj2 (@trade_ids_are_sequential sample_numpy sample_engine
                         sample_df 52))).
  vm_compute. reflexivity.
Defined.




Lemma rsi_extreme_closes_the_position_witness :
  exists trade,
    closed_with stop_priority_engine
      (fst (BacktestEngine.process_bar (np := sample_numpy)
              stop_priority_engine overbought_df 1))
      trade
    /\ Trade.id trade = 1%nat.
Proof.
  apply (@rsi_extreme_closes_the_position sample_numpy stop_priority_engine
           overbought_df 1 (Position.mk long 95 0 1 87.5 110 87.5 1)
           eq_refl (le_n 1)).
  left. split; [reflexivity | vm_compute; reflexivity].
Defined.

(** * The volatility regime *)

Section Regime.

Import VolatilityIndicators.

Lemma nth_regime (atr : list (option Q)) (idx : nat) :
  (idx < length atr)%nat ->
  nth idx (_calculate_volatility_regime atr) NormalVolatility
  = match atr_percentile atr idx with
    | Some pct =>
        if pct >=? 0.75 then HighVolatility
        else if pct <=? 0.25 then LowVolatility
        else NormalVolatility
    | None => NormalVolatility
    end.
Proof.
  intro H. unfold _calculate_volatility_regime.
  set (f := fun idx => match atr_percentile atr idx with Some pct => _ | None => _ end).
  transitivity (nth idx (map f (seq 0 (length atr))) (f 0%nat)).
  - apply nth_indep. rewrite length_map, length_seq. exact H.
  - rewrite (map_nth f), seq_nth by exact H. reflexivity.
Qed.

Lemma window_values (atr : list (option Q)) (idx : nat) (w : nat -> Q) :
  (99 <= idx < length atr)%nat ->
  (forall j, (idx - 99 <= j <= idx)%nat -> nth j atr None = Some (w j)) ->
  islice atr (idx + 1 - 100) (idx + 1) = map (fun j => Some (w j)) (seq (idx - 99) 100).
Proof.
  intros [H99 Hlen] Hw. unfold islice.
  apply (nth_ext _ _ None (Some (w 0%nat))).
  - rewrite length_firstn, length_skipn, length_map, length_seq. lia.
  - intros n Hn. rewrite length_firstn, length_skipn in Hn.
    rewrite nth_firstn, nth_skipn.
    destruct (Nat.ltb_spec n (idx + 1 - (idx + 1 - 100))); [|lia].
    rewrite (map_nth (fun j => Some (w j))), seq_nth by lia.
    rewrite Hw by lia. f_equal. f_equal. lia.
Qed.

Lemma present_values_map (w : nat -> Q) (js : list nat) :
  forallb is_present (map (fun j => Some (w j)) js) = true
  /\ present_values (map (fun j => Some (w j)) js) = map w js.
Proof.
  induction js as [|j js [IH1 IH2]]; [split; reflexivity|].
  cbn. rewrite IH1. split; [reflexivity|]. unfold present_values in IH2. rewrite IH2. reflexivity.
Qed.

Lemma filter_length_all {A} (f : A -> bool) (l : list A) :
  (forall y, In y l -> f y = true) -> length (filter f l) = length l.
Proof.
  induction l as [|a l IH]; intro H; [reflexivity|]. cbn.
  rewrite (H a (or_introl eq_refl)). cbn. f_equal. apply IH.
  intros y Hy. apply H. right. exact Hy.
Qed.

Lemma filter_length_none {A} (f : A -> bool) (l : list A) :
  (forall y, In y l -> f y = false) -> length (filter f l) = 0%nat.
Proof.
  induction l as [|a l IH]; intro H; [reflexivity|]. cbn.
  rewrite (H a (or_introl eq_refl)). apply IH.
  intros y Hy. apply H. right. exact Hy.
Qed.

Lemma rank_pct_last_snoc (l : list Q) (v : Q) :
  rank_pct_last (l ++ [v])
  = (inject_Z (Z.of_nat (length (filter (fun y => y <? v) l)))
     + (inject_Z (Z.of_nat (S (length (filter (fun y => Qeq_bool y v) l)))) + 1) / 2)
    / inject_Z (Z.of_nat (S (length l))).
Proof.
  unfold rank_pct_last. rewrite last_last, !filter_app, !length_app.
  cbn [filter length].
  assert (E1 : (v <? v) = false) by (apply Qltb_ge; lra).
  assert (E2 : Qeq_bool v v = true) by (apply Qeq_bool_iff; reflexivity).
  rewrite E1, E2. cbn [length]. rewrite !Nat.add_0_r, !Nat.add_1_r. reflexivity.
Qed.

(** X19: the regime column has one entry per row; a row is normal while
    fewer than 100 rows are available or while any ATR of its 100-row
    window is missing; with a full window, a row whose ATR is strictly the
    highest of the window is in the high regime, one whose ATR is strictly
    the lowest in the low regime, and a window of equal ATRs is normal. *)
Theorem regime_of_the_atr_window (atr : list (option Q)) (idx : nat)
    (w : nat -> Q) :
  let regime := nth idx (_calculate_volatility_regime atr) NormalVolatility in
  length (_calculate_volatility_regime atr) = length atr
  /\ ((idx < length atr)%nat ->
      (idx < 99)%nat
      \/ (exists j, (idx - 99 <= j <= idx)%nat /\ nth j atr None = None) ->
      regime = NormalVolatility)
  /\ ((99 <= idx < length atr)%nat ->
      (forall j, (idx - 99 <= j <= idx)%nat -> nth j atr None = Some (w j)) ->
      ((forall j, (idx - 99 <= j < idx)%nat -> w j < w idx) ->
       regime = HighVolatility)
      /\ ((forall j, (idx - 99 <= j < idx)%nat -> w idx < w j) ->
          regime = LowVolatility)
      /\ ((forall j, (idx - 99 <= j < idx)%nat -> w j == w idx) ->
          regime = NormalVolatility)).
Proof.
  cbv zeta. split; [|split].
  - unfold _calculate_volatility_regime. rewrite length_map, length_seq. reflexivity.
  - intros Hlen Hwarm. rewrite nth_regime by exact Hlen.
    unfold atr_percentile.
    destruct (Nat.ltb_spec (idx + 1) 100) as [|H100]; [reflexivity|].
    destruct Hwarm as [H99|(j & Hj & Hnone)]; [lia|].
    assert (Hin : In None (islice atr (idx + 1 - 100) (idx + 1))).
    { rewrite <- Hnone. unfold islice.
      replace (nth j atr None)
        with (nth (j - (idx + 1 - 100))
                (firstn (idx + 1 - (idx + 1 - 100)) (skipn (idx + 1 - 100) atr)) None).
      - apply nth_In. rewrite length_firstn, length_skipn. lia.
      - rewrite nth_firstn, nth_skipn.
        destruct (Nat.ltb_spec (j - (idx + 1 - 100)) (idx + 1 - (idx + 1 - 100))); [|lia].
        f_equal. lia. }
    destruct (forallb is_present _) eqn:F; [|reflexivity].
    rewrite forallb_forall in F. specialize (F None Hin). discriminate.
  - intros [H99 Hlen] Hw. rewrite nth_regime by exact Hlen.
    unfold atr_percentile.
    destruct (Nat.ltb_spec (idx + 1) 100) as [|_]; [lia|].
    rewrite (window_values atr idx w (conj H99 Hlen) Hw).
    destruct (present_values_map w (seq (idx - 99) 100)) as [-> ->].
    replace 100%nat with (S 99) at 1 2 3 by reflexivity.
    rewrite seq_S, map_app. cbn [map].
    replace (idx - 99 + 99)%nat with idx by lia.
    rewrite rank_pct_last_snoc, length_map, length_seq.
    assert (Hin : forall y, In y (map w (seq (idx - 99) 99)) ->
                            exists j, (idx - 99 <= j < idx)%nat /\ y = w j).
    { intros y Hy. apply in_map_iff in Hy. destruct Hy as (j & <- & Hj).
      apply in_seq in Hj. exists j. split; [lia | reflexivity]. }
    split; [|split]; intro Hcmp.
    + rewrite filter_length_all, filter_length_none, length_map, length_seq.
      * reflexivity.
      * intros y Hy. destruct (Hin y Hy) as (j & Hj & ->).
        apply not_true_is_false. intro E. apply Qeq_bool_iff in E.
        specialize (Hcmp j Hj). lra.
      * intros y Hy. destruct (Hin y Hy) as (j & Hj & ->).
        apply Qltb_lt, Hcmp, Hj.
    + rewrite !filter_length_none.
      * reflexivity.
      * intros y Hy. destruct (Hin y Hy) as (j & Hj & ->).
        apply not_true_is_false. intro E. apply Qeq_bool_iff in E.
        specialize (Hcmp j Hj). lra.
      * intros y Hy. destruct (Hin y Hy) as (j & Hj & ->).
        apply Qltb_ge. specialize (Hcmp j Hj). lra.
    + rewrite filter_length_none, filter_length_all, length_map, length_seq.
      * reflexivity.
      * intros y Hy. destruct (Hin y Hy) as (j & Hj & ->).
        apply Qeq_bool_iff, Hcmp, Hj.
      * intros y Hy. destruct (Hin y Hy) as (j & Hj & ->).
        apply Qltb_ge. specialize (Hcmp j Hj). lra.
Qed.

End Regime.

Lemma regime_of_the_atr_window_witness :
  nth 99 (VolatilityIndicators._calculate_volatility_regime rising_atr)
    NormalVolatility
  = HighVolatility.
Proof.
  apply (proj1 (proj2 (proj2 (regime_of_the_atr_window rising_atr 99
                                (fun j => inject_Z (Z.of_nat j))))
                  ltac:(vm_compute; lia)
                  ltac:(intros j Hj;
                        do 100 (destruct j as [|j]; [reflexivity|]); lia))).
  intros j Hj. unfold Qlt, inject_Z. cbn [Qnum Qden]. lia.
Defined.

(** * The volume and volatility filters and the volatility summary *)

Section VolatilityReports.

Import VolatilityIndicators.

Lemma Qsum_ge (xs : list Q) (c : Q) :
  (forall y, In y xs -> c <= y) ->
  inject_Z (Z.of_nat (length xs)) * c <= Qsum xs.
Proof.
  induction xs as [|x xs IH] using rev_ind; intro H.
  - unfold Qsum. cbn [length fold_left Z.of_nat].
    change (inject_Z 0) with 0. lra.
  - rewrite Qsum_snoc, length_app. cbn [length]. rewrite Nat.add_1_r.
    rewrite Nat2Z.inj_succ. unfold Z.succ. rewrite inject_Z_plus.
    change (inject_Z 1) with 1.
    assert (Hx : c <= x) by (apply H, in_or_app; right; left; reflexivity).
    assert (Hxs : inject_Z (Z.of_nat (length xs)) * c <= Qsum xs).
    { apply IH. intros y Hy. apply H, in_or_app. left. exact Hy. }
    lra.
Qed.

(** The mean of a non-empty window is at least any lower bound of its
    values. *)
Lemma mean_ge (xs : list Q) (c : Q) :
  xs <> [] -> (forall y, In y xs -> c <= y) -> c <= mean xs.
Proof.
  intros Hne H. unfold mean.
  apply Qle_shift_div_l.
  - apply inject_nat_pos. destruct xs; [congruence | cbn; lia].
  - rewrite Qmult_comm. apply Qsum_ge. exact H.
Qed.

Lemma In_column (col : Bar -> Q) (df : DataFrame) (start stop : nat) (y : Q) :
  In y (column col df start stop) ->
  exists j, (start <= j < stop)%nat /\ y = col (iloc df j).
Proof.
  unfold column, islice, iloc. intro H.
  apply in_map_iff in H. destruct H as (b & <- & Hb).
  apply (In_nth _ _ nan_bar) in Hb. destruct Hb as (n & Hn & <-).
  rewrite length_firstn, length_skipn in Hn.
  exists (start + n)%nat. split; [lia|].
  rewrite nth_firstn. destruct (Nat.ltb_spec n (stop - start)); [|lia].
  rewrite nth_skipn. reflexivity.
Qed.

Lemma filter_exclusive_length {A : Type} (f g : A -> bool) (l : list A) :
  (forall y, f y = true -> g y = false) ->
  (length (filter f l) + length (filter g l) <= length l)%nat.
Proof.
  intro H. induction l as [|a l IH]; [reflexivity|]. cbn [filter].
  destruct (f a) eqn:Ef.
  - rewrite (H a Ef). cbn [length]. lia.
  - destruct (g a); cbn [length]; lia.
Qed.

(** A percentile rank is a fraction of the window. *)
Lemma rank_pct_last_bounds (x : list Q) :
  x <> [] -> 0 < rank_pct_last x <= 1.
Proof.
  intro Hne. destruct (exists_last Hne) as (l & v & ->).
  rewrite rank_pct_last_snoc.
  pose proof (filter_exclusive_length
                (fun y => y <? v) (fun y => Qeq_bool y v) l) as Hlen.
  assert (Hd : forall y, (y <? v) = true -> Qeq_bool y v = false).
  { intros y Hy. apply Qltb_lt in Hy.
    destruct (Qeq_bool y v) eqn:E; [|reflexivity].
    apply Qeq_bool_iff in E. lra. }
  specialize (Hlen Hd).
  set (s := length (filter (fun y => y <? v) l)) in *.
  set (e := length (filter (fun y => Qeq_bool y v) l)) in *.
  set (n := length l) in *.
  pose proof (inject_nat_le (s + e) n Hlen) as Hq.
  pose proof (inject_nat_le 0 s ltac:(lia)) as Hs.
  pose proof (inject_nat_le 0 e ltac:(lia)) as He.
  pose proof (inject_nat_le 0 n ltac:(lia)) as Hn.
  rewrite Nat2Z.inj_add, inject_Z_plus in Hq.
  rewrite !Nat2Z.inj_succ. unfold Z.succ. rewrite !inject_Z_plus.
  change (inject_Z 1) with 1. change (inject_Z (Z.of_nat 0)) with 0 in *.
  set (qs := inject_Z (Z.of_nat s)) in *.
  set (qe := inject_Z (Z.of_nat e)) in *.
  set (qn := inject_Z (Z.of_nat n)) in *.
  clearbody qs qe qn.
  split.
  - apply Qlt_shift_div_l; [lra|].
    unfold Qdiv. change (/ 2) with (1 # 2). lra.
  - apply Qle_shift_div_r; [lra|].
    unfold Qdiv. change (/ 2) with (1 # 2). lra.
Qed.

Lemma islice_map {A B : Type} (f : A -> B) (l : list A) (start stop : nat) :
  islice (map f l) start stop = map f (islice l start stop).
Proof. unfold islice. rewrite skipn_map, firstn_map. reflexivity. Qed.

(** X21: [get_volatility_summary] returns the empty dictionary during the
    volatility look-back; from then until bar 99 it raises [IndexError] on
    every frame of at least 100 rows (the slice [idx-100:idx] starts from
    the end of the frame and is empty); from bar 100 on it returns a
    summary whose percentile is the rank of the previous bar's ATR among
    the 100 bars before the current one, a fraction in (0, 1]. *)
Theorem volatility_summary_needs_100_bars (vi : t) (df : DataFrame)
    (ATR_ROC : list Q) (idx : nat) :
  ((idx < volatility_lookback (params vi))%nat ->
   get_volatility_summary vi df ATR_ROC idx = SummaryReturned None)
  /\ ((volatility_lookback (params vi) <= idx)%nat ->
      (idx < 100 <= length df)%nat ->
      get_volatility_summary vi df ATR_ROC idx = SummaryIndexError)
  /\ ((volatility_lookback (params vi) <= idx)%nat ->
      (100 <= idx < length df)%nat ->
      exists summary,
        get_volatility_summary vi df ATR_ROC idx
        = SummaryReturned (Some summary)
        /\ summary_current_atr summary = ATR (iloc df idx)
        /\ summary_atr_percentile summary
           = rank_pct_last (column ATR df (idx - 100) idx)
        /\ 0 < summary_atr_percentile summary <= 1).
Proof.
  unfold get_volatility_summary, islice_int. rewrite length_map.
  split; [|split].
  - intro H. destruct (Nat.ltb_spec idx (volatility_lookback (params vi)));
      [reflexivity | lia].
  - intros Hl [H100 Hlen].
    destruct (Nat.ltb_spec idx (volatility_lookback (params vi))); [lia|].
    destruct (Nat.leb_spec (length df) idx); [reflexivity|].
    assert (E1 : slice_bound (length df) (Z.of_nat idx - 100)
                 = (length df + idx - 100)%nat).
    { unfold slice_bound.
      destruct (Z.ltb_spec (Z.of_nat idx - 100) 0); lia. }
    assert (E2 : slice_bound (length df) (Z.of_nat idx) = idx).
    { unfold slice_bound. destruct (Z.ltb_spec (Z.of_nat idx) 0); lia. }
    rewrite E1, E2. unfold islice.
    replace (idx - (length df + idx - 100))%nat with 0%nat by lia.
    reflexivity.
  - intros Hl [H100 Hlen].
    destruct (Nat.ltb_spec idx (volatility_lookback (params vi))); [lia|].
    destruct (Nat.leb_spec (length df) idx); [lia|].
    assert (E1 : slice_bound (length df) (Z.of_nat idx - 100)
                 = (idx - 100)%nat).
    { unfold slice_bound.
      destruct (Z.ltb_spec (Z.of_nat idx - 100) 0); lia. }
    assert (E2 : slice_bound (length df) (Z.of_nat idx) = idx).
    { unfold slice_bound. destruct (Z.ltb_spec (Z.of_nat idx) 0); lia. }
    rewrite E1, E2, islice_map. fold (column ATR df (idx - 100) idx).
    assert (Hw : length (column ATR df (idx - 100) idx) = 100%nat).
    { unfold column, islice.
      rewrite length_map, length_firstn, length_skipn. lia. }
    destruct (column ATR df (idx - 100) idx) as [|a window] eqn:Ew;
      [discriminate|].
    eexists. split; [reflexivity|].
    cbn [summary_current_atr summary_atr_percentile].
    split; [reflexivity|]. split; [reflexivity|].
    apply rank_pct_last_bounds. discriminate.
Qed.

(** X22: neither filter fires on a bar that does not rise above its
    window: with a threshold of at least 1 and non-negative values, a bar
    whose ATR is at most every ATR of the look-back window is no
    volatility breakout, and a bar whose volume is at most every volume of
    the 20 bars before it has no volume confirmation. *)
Theorem filters_need_a_rise (vi : t) (df : DataFrame) (idx lookback : nat)
    (threshold : Q) :
  1 <= threshold ->
  (idx < length df)%nat ->
  ((forall j, (idx - lookback <= j < idx)%nat ->
      0 <= ATR (iloc df j) /\ ATR (iloc df idx) <= ATR (iloc df j)) ->
   is_volatility_breakout vi df idx lookback threshold = false)
  /\ ((forall j, (idx - 20 <= j < idx)%nat ->
         0 <= Volume (iloc df j)
         /\ Volume (iloc df idx) <= Volume (iloc df j)) ->
      MomentumPatterns.is_momentum_confirmed df idx threshold = false).
Proof.
  intros Ht Hlen. split; intro H.
  - unfold is_volatility_breakout.
    destruct (Nat.ltb_spec idx lookback); [reflexivity|].
    destruct (column ATR df (idx - lookback) idx) as [|a window] eqn:Ew;
      [reflexivity|].
    apply Qgtb_le.
    assert (Hc : ATR (iloc df idx) <= mean (a :: window)).
    { apply mean_ge; [discriminate|]. intros y Hy. rewrite <- Ew in Hy.
      apply In_column in Hy. destruct Hy as (j & Hj & ->). apply H, Hj. }
    assert (Hm : 0 <= mean (a :: window)).
    { apply mean_ge; [discriminate|]. intros y Hy. rewrite <- Ew in Hy.
      apply In_column in Hy. destruct Hy as (j & Hj & ->). apply H, Hj. }
    nra.
  - unfold MomentumPatterns.is_momentum_confirmed.
    destruct (Nat.ltb_spec idx 20); [reflexivity|].
    assert (Hne : column Volume df (idx - 20) idx <> []).
    { intro E. apply (f_equal (@length Q)) in E. revert E.
      unfold column, islice.
      rewrite length_map, length_firstn, length_skipn. cbn [length]. lia. }
    apply Qgtb_le.
    assert (Hc : Volume (iloc df idx) <= mean (column Volume df (idx - 20) idx)).
    { apply mean_ge; [exact Hne|]. intros y Hy.
      apply In_column in Hy. destruct Hy as (j & Hj & ->). apply H, Hj. }
    assert (Hm : 0 <= mean (column Volume df (idx - 20) idx)).
    { apply mean_ge; [exact Hne|]. intros y Hy.
      apply In_column in Hy. destruct Hy as (j & Hj & ->). apply H, Hj. }
    nra.
Qed.

End VolatilityReports.

Lemma volatility_summary_needs_100_bars_witness :
  VolatilityIndicators.get_volatility_summary default_rules long_ramp_df [] 50
  = VolatilityIndicators.SummaryIndexError.
Proof.
  apply (proj1 (proj2 (volatility_summary_needs_100_bars
                         default_rules long_ramp_df [] 50))).
  - vm_compute. lia.
  - vm_compute. lia.
Defined.

Lemma filters_need_a_rise_witness :
  VolatilityIndicators.is_volatility_breakout default_rules long_ramp_df
    50 20 1.5 = false
  /\ MomentumPatterns.is_momentum_confirmed long_ramp_df 50 1.5 = false.
Proof.
  destruct (filters_need_a_rise default_rules long_ramp_df 50 20 1.5
              ltac:(vm_compute; discriminate) ltac:(vm_compute; lia))
    as [Hatr Hvolume].
  split; [apply Hatr | apply Hvolume]; intros j Hj;
    do 50 (destruct j as [|j];
           [first [lia | vm_compute; split; discriminate]|]);
    lia.
Defined.
